(** * CloudSentinel API: tenant-scoped authorization and the run-checks engine

    A shallow embedding of [apps/api/main.py] over the tables of
    [apps/api/models.py] and the request bodies of [apps/api/schemas.py].

    - Every table is a list of rows in storage order: [Query.first()] is the
      first matching row, [Query.all()] without [order_by] returns the
      matching rows in storage order, and an INSERT appends.
    - Primary keys come from one increasing sequence per table.
    - A handler runs in a session: statements act on the transaction's view
      of the database and [db.commit()] publishes that view.  The dependency
      [get_db] closes the session when the request ends, which drops whatever
      was not committed.
    - [get_current_user] (JWT decoding) is not embedded: a handler receives
      the e-mail it resolved, that is [current_user["email"]].
    - [datetime.utcnow], the column default of every [created_at], is an
      input of the handler: the reading taken for each inserted row.
    - [passlib]'s hash and [json.dumps] are parameters of the development;
      request bodies are taken as validated by their pydantic schema.
    - The handlers test for a duplicate e-mail or tenant name before they
      insert, and the owner link is inserted for a fresh tenant id, so no
      INSERT violates a unique constraint and [IntegrityError] does not
      arise.
    - Response models ([FindingOut], ...) only project columns; a handler's
      value is the row itself. *)

From Stdlib Require Import ZArith List String Bool Lia Permutation.
Import ListNotations.

Local Open Scope string_scope.
Local Open Scope Z_scope.

(* ------------------------------------------------------------------ *)
(** ** Python helpers *)

(** [str.endswith]. *)
Definition endswith (s suffix : string) : bool :=
  let n := String.length s in
  let m := String.length suffix in
  if (m <=? n)%nat then String.eqb (substring (n - m) m s) suffix else false.

(** Truth value of an [Optional[str]]: [None] and the empty string are false. *)
Definition truthy (o : option string) : bool :=
  match o with
  | None => false
  | Some s => negb (String.eqb s "")
  end.

(* ------------------------------------------------------------------ *)
(** ** models.py *)

Module User.
Record t := mk
  { id : Z; email : string; password_hash : string;
    is_active : bool; created_at : Z }.
End User.

Module Tenant.
Record t := mk { id : Z; name : string; created_at : Z }.
End Tenant.

Module UserTenant.
Record t := mk { id : Z; user_id : Z; tenant_id : Z; role : string }.
End UserTenant.

Module Asset.
Record t := mk
  { id : Z; tenant_id : Z; type : string; name : string;
    region : option string; config_json : option string; created_at : Z }.
End Asset.

Module Finding.
Record t := mk
  { id : Z; tenant_id : Z; asset_id : Z; severity : string; title : string;
    description : option string; status : string; created_at : Z }.

(** A transient instance, as built by [Finding(...)] in [run_checks]: the
    primary key and [created_at] are assigned by the INSERT. *)
Record transient := new
  { new_tenant_id : Z; new_asset_id : Z; new_severity : string;
    new_title : string; new_description : option string;
    new_status : string }.

Definition persist (pk now : Z) (f : transient) : t :=
  mk pk (new_tenant_id f) (new_asset_id f) (new_severity f) (new_title f)
     (new_description f) (new_status f) now.

Definition set_status (s : string) (f : t) : t :=
  mk (id f) (tenant_id f) (asset_id f) (severity f) (title f)
     (description f) s (created_at f).
End Finding.

(** The database: the five tables and the next value of each primary-key
    sequence. *)
Record DB := mkDB
  { users : list User.t;
    tenants : list Tenant.t;
    user_tenants : list UserTenant.t;
    assets : list Asset.t;
    findings : list Finding.t;
    users_seq : Z;
    tenants_seq : Z;
    user_tenants_seq : Z;
    assets_seq : Z;
    findings_seq : Z }.

(** [init_db]: the schema freshly created. *)
Definition init_db : DB := mkDB [] [] [] [] [] 1 1 1 1 1.

(* ------------------------------------------------------------------ *)
(** ** schemas.py *)

Module UserCreate.
Record t := mk { email : string; password : string }.
End UserCreate.

Module TenantCreate.
Record t := mk { name : string }.
End TenantCreate.

Module AssetCreate.
Record t (Dict : Type) := mk
  { tenant_id : Z; type : string; name : string;
    region : option string; config_json : option Dict }.
Arguments mk {Dict}.
Arguments tenant_id {Dict}.
Arguments type {Dict}.
Arguments name {Dict}.
Arguments region {Dict}.
Arguments config_json {Dict}.
End AssetCreate.

Module FindingUpdate.
Record t := mk { status : string }.
End FindingUpdate.

(* ------------------------------------------------------------------ *)
(** ** SQL statements *)

Definition insert_user (now : Z) (email password_hash : string) (db : DB)
  : DB * User.t :=
  let row := User.mk (users_seq db) email password_hash true now in
  (mkDB (users db ++ [row]) (tenants db) (user_tenants db) (assets db)
        (findings db) (users_seq db + 1) (tenants_seq db)
        (user_tenants_seq db) (assets_seq db) (findings_seq db), row).

Definition insert_tenant (now : Z) (name : string) (db : DB) : DB * Tenant.t :=
  let row := Tenant.mk (tenants_seq db) name now in
  (mkDB (users db) (tenants db ++ [row]) (user_tenants db) (assets db)
        (findings db) (users_seq db) (tenants_seq db + 1)
        (user_tenants_seq db) (assets_seq db) (findings_seq db), row).

Definition insert_user_tenant (user_id tenant_id : Z) (role : string) (db : DB)
  : DB * UserTenant.t :=
  let row := UserTenant.mk (user_tenants_seq db) user_id tenant_id role in
  (mkDB (users db) (tenants db) (user_tenants db ++ [row]) (assets db)
        (findings db) (users_seq db) (tenants_seq db)
        (user_tenants_seq db + 1) (assets_seq db) (findings_seq db), row).

Definition insert_asset (now tenant_id : Z) (type name : string)
    (region config_json : option string) (db : DB) : DB * Asset.t :=
  let row := Asset.mk (assets_seq db) tenant_id type name region config_json now in
  (mkDB (users db) (tenants db) (user_tenants db) (assets db ++ [row])
        (findings db) (users_seq db) (tenants_seq db)
        (user_tenants_seq db) (assets_seq db + 1) (findings_seq db), row).

Definition insert_finding (now : Z) (f : Finding.transient) (db : DB)
  : DB * Finding.t :=
  let row := Finding.persist (findings_seq db) now f in
  (mkDB (users db) (tenants db) (user_tenants db) (assets db)
        (findings db ++ [row]) (users_seq db) (tenants_seq db)
        (user_tenants_seq db) (assets_seq db) (findings_seq db + 1), row).

Definition set_findings (fs : list Finding.t) (db : DB) : DB :=
  mkDB (users db) (tenants db) (user_tenants db) (assets db) fs
       (users_seq db) (tenants_seq db) (user_tenants_seq db)
       (assets_seq db) (findings_seq db).

(** The filter of [run_checks]' bulk delete and of its final query. *)
Definition is_open_of (tenant_id : Z) (f : Finding.t) : bool :=
  (Finding.tenant_id f =? tenant_id) && String.eqb (Finding.status f) "open".

(** [DELETE FROM findings WHERE tenant_id = ? AND status = 'open']. *)
Definition delete_open_findings (tenant_id : Z) (db : DB) : DB :=
  set_findings (filter (fun f => negb (is_open_of tenant_id f)) (findings db)) db.

(** [DELETE FROM assets WHERE id = ?]; the foreign key
    [findings.asset_id ... ondelete="CASCADE"] removes the asset's findings. *)
Definition delete_asset_row (a : Asset.t) (db : DB) : DB :=
  mkDB (users db) (tenants db) (user_tenants db)
       (filter (fun x => negb (Asset.id x =? Asset.id a)) (assets db))
       (filter (fun f => negb (Finding.asset_id f =? Asset.id a)) (findings db))
       (users_seq db) (tenants_seq db) (user_tenants_seq db)
       (assets_seq db) (findings_seq db).

(** [UPDATE findings SET status = ? WHERE id = ?]. *)
Definition update_finding_status (pk : Z) (s : string) (db : DB) : DB :=
  set_findings
    (map (fun f => if Finding.id f =? pk then Finding.set_status s f else f)
         (findings db)) db.

(** [ORDER BY created_at DESC], rows of equal [created_at] kept in storage
    order. *)
Fixpoint insert_desc (f : Finding.t) (l : list Finding.t) : list Finding.t :=
  match l with
  | [] => [f]
  | g :: l' =>
      if Finding.created_at g <=? Finding.created_at f
      then f :: l
      else g :: insert_desc f l'
  end.

Definition order_by_created_at_desc (l : list Finding.t) : list Finding.t :=
  fold_right insert_desc [] l.

(* ------------------------------------------------------------------ *)
(** ** Handlers: a session with explicit commits, and HTTP errors *)

Inductive HTTPError :=
| HTTPException (status_code : Z) (detail : string)
| RequestValidationError (param : string).

Definition status_code (e : HTTPError) : Z :=
  match e with
  | HTTPException c _ => c
  | RequestValidationError _ => 422
  end.

Inductive result (A : Type) :=
| Return (a : A)
| Raised (e : HTTPError).
Arguments Return {A}.
Arguments Raised {A}.

(** [txn]: the database as the open transaction sees it; [commits]: the
    states published by [db.commit()] so far, oldest first. *)
Record Session := mkSession { txn : DB; commits : list DB }.

Definition Handler (A : Type) : Type := Session -> result A * Session.

Definition ret {A} (a : A) : Handler A := fun s => (Return a, s).

Definition raise {A} (e : HTTPError) : Handler A := fun s => (Raised e, s).

Definition bind {A B} (c : Handler A) (k : A -> Handler B) : Handler B :=
  fun s =>
    match c s with
    | (Return a, s') => k a s'
    | (Raised e, s') => (Raised e, s')
    end.

Notation "x <- c ;; k" := (bind c (fun x => k))
  (at level 61, c at next level, right associativity).
Notation "c ;;; k" := (bind c (fun _ => k))
  (at level 61, right associativity).

(** [db.query(Table)]: the rows of a table in the transaction's view. *)
Definition query {A} (table : DB -> list A) : Handler (list A) :=
  fun s => (Return (table (txn s)), s).

(** A statement that changes the transaction's view. *)
Definition execute (stmt : DB -> DB) : Handler unit :=
  fun s => (Return tt, mkSession (stmt (txn s)) (commits s)).

(** [db.add(obj)] followed by the flush of the next [db.commit()].  The
    session has [autoflush=False] and no handler queries between an [add]
    and its [commit], so the INSERT is placed at the [add]. *)
Definition add {A} (ins : DB -> DB * A) : Handler A :=
  fun s => let (db', row) := ins (txn s) in (Return row, mkSession db' (commits s)).

(** [db.commit()]. *)
Definition commit : Handler unit :=
  fun s => (Return tt, mkSession (txn s) (commits s ++ [txn s])).

(** What a request leaves behind: its response, the states it committed
    (oldest first) and the database after the session is closed. *)
Record Outcome (A : Type) := mkOutcome
  { response : result A; committed : list DB; store : DB }.
Arguments mkOutcome {A}.
Arguments response {A}.
Arguments committed {A}.
Arguments store {A}.

Definition serve {A} (h : Handler A) (db : DB) : Outcome A :=
  let (r, s) := h (mkSession db []) in
  mkOutcome r (commits s) (last (commits s) db).

(* ------------------------------------------------------------------ *)
(** ** main.py: helpers *)

Definition get_user_by_email (email : string) : Handler (option User.t) :=
  rows <- query users ;;
  ret (find (fun u => String.eqb (User.email u) email) rows).

Definition is_link (user_id tenant_id : Z) (l : UserTenant.t) : bool :=
  (UserTenant.user_id l =? user_id) && (UserTenant.tenant_id l =? tenant_id).

Definition Forbidden : HTTPError :=
  HTTPException 403 "User not linked to this tenant".

Definition ensure_user_in_tenant (user_id tenant_id : Z) : Handler unit :=
  rows <- query user_tenants ;;
  match find (is_link user_id tenant_id) rows with
  | Some _ => ret tt
  | None => raise Forbidden
  end.

(** The opening lines of every protected handler:
    [user = get_user_by_email(db, current_user["email"])] and
    [if not user: raise HTTPException(status_code=404, ...)]. *)
Definition require_user (current_user : string) : Handler User.t :=
  user <- get_user_by_email current_user ;;
  match user with
  | Some u => ret u
  | None => raise (HTTPException 404 "User not found")
  end.

(* ------------------------------------------------------------------ *)
(** ** main.py: the rule engine of [run_checks] *)

(** The body of the loop [for a in assets]: the two independent rules, in
    source order. *)
Definition check_asset (tenant_id : Z) (a : Asset.t) : list Finding.transient :=
  (if String.eqb (Asset.type a) "aws_s3_bucket"
      && negb (endswith (Asset.name a) "-prod")
   then [Finding.new tenant_id (Asset.id a) "low"
           "S3 bucket not tagged as production"
           (Some (String.append "Bucket '"
                    (String.append (Asset.name a) "' does not end with '-prod'.")))
           "open"]
   else [])
  ++
  (if negb (truthy (Asset.region a))
   then [Finding.new tenant_id (Asset.id a) "medium"
           "Asset has no region set"
           (Some (String.append "Asset '"
                    (String.append (Asset.name a) "' has no region specified.")))
           "open"]
   else []).

(** [for f in to_add: db.add(f)]: the [k]-th row flushed by the request takes
    the clock reading [now k]. *)
Fixpoint add_all (now : nat -> Z) (k : nat) (to_add : list Finding.transient)
  : Handler unit :=
  match to_add with
  | [] => ret tt
  | f :: rest => add (insert_finding (now k) f) ;;; add_all now (S k) rest
  end.

(** The rows [add_all] appends, given the first free primary key. *)
Fixpoint persist_all (now : nat -> Z) (k : nat) (pk : Z)
    (to_add : list Finding.transient) : list Finding.t :=
  match to_add with
  | [] => []
  | f :: rest =>
      Finding.persist pk (now k) f :: persist_all now (S k) (pk + 1) rest
  end.

(* ------------------------------------------------------------------ *)
(** ** main.py: the endpoints *)

Section Api.

(** The parsed [config_json] object of a request and [json.dumps]. *)
Variable Dict : Type.
Variable json_dumps : Dict -> string.

(** [auth.hash_password] ([passlib]'s bcrypt context). *)
Variable hash_password : string -> string.

(** POST /auth/register *)
Definition register (now : Z) (payload : UserCreate.t) : Handler User.t :=
  rows <- query users ;;
  match find (fun u => String.eqb (User.email u) (UserCreate.email payload)) rows with
  | Some _ => raise (HTTPException 400 "Email already registered")
  | None =>
      new_user <- add (insert_user now (UserCreate.email payload)
                         (hash_password (UserCreate.password payload))) ;;
      commit ;;;
      ret new_user
  end.

(** POST /tenants *)
Definition create_tenant (now : Z) (payload : TenantCreate.t)
    (current_user : string) : Handler Tenant.t :=
  user <- require_user current_user ;;
  rows <- query tenants ;;
  match find (fun t => String.eqb (Tenant.name t) (TenantCreate.name payload)) rows with
  | Some _ => raise (HTTPException 400 "Tenant name already exists")
  | None =>
      t <- add (insert_tenant now (TenantCreate.name payload)) ;;
      commit ;;;
      add (insert_user_tenant (User.id user) (Tenant.id t) "owner") ;;;
      commit ;;;
      ret t
  end.

(** GET /tenants: [Tenant JOIN UserTenant ON tenant_id = Tenant.id WHERE
    UserTenant.user_id = user.id]. *)
Definition list_my_tenants (current_user : string) : Handler (list Tenant.t) :=
  user <- require_user current_user ;;
  ts <- query tenants ;;
  links <- query user_tenants ;;
  ret (flat_map
         (fun t => map (fun _ => t)
                     (filter (is_link (User.id user) (Tenant.id t)) links))
         ts).

(** POST /assets *)
Definition create_asset (now : Z) (payload : AssetCreate.t Dict)
    (current_user : string) : Handler Asset.t :=
  user <- require_user current_user ;;
  ensure_user_in_tenant (User.id user) (AssetCreate.tenant_id payload) ;;;
  a <- add (insert_asset now
              (AssetCreate.tenant_id payload)
              (AssetCreate.type payload)
              (AssetCreate.name payload)
              (AssetCreate.region payload)
              (match AssetCreate.config_json payload with
               | None => None
               | Some d => Some (json_dumps d)
               end)) ;;
  commit ;;;
  ret a.

(** GET /assets *)
Definition list_assets (tenant_id : Z) (current_user : string)
  : Handler (list Asset.t) :=
  user <- require_user current_user ;;
  ensure_user_in_tenant (User.id user) tenant_id ;;;
  rows <- query assets ;;
  ret (filter (fun a => Asset.tenant_id a =? tenant_id) rows).

(** DELETE /assets/{asset_id}, with [asset_id: int = Path(..., gt=0)]
    validated before the body runs. *)
Definition delete_asset (asset_id : Z) (current_user : string) : Handler unit :=
  if asset_id <=? 0 then raise (RequestValidationError "asset_id")
  else
    user <- require_user current_user ;;
    rows <- query assets ;;
    match find (fun a => Asset.id a =? asset_id) rows with
    | None => raise (HTTPException 404 "Asset not found")
    | Some a =>
        ensure_user_in_tenant (User.id user) (Asset.tenant_id a) ;;;
        execute (delete_asset_row a) ;;;
        commit ;;;
        ret tt
    end.

(** GET /findings *)
Definition list_findings (tenant_id : Z) (status_f : option string)
    (current_user : string) : Handler (list Finding.t) :=
  user <- require_user current_user ;;
  ensure_user_in_tenant (User.id user) tenant_id ;;;
  rows <- query findings ;;
  let q := filter (fun f => Finding.tenant_id f =? tenant_id) rows in
  let q := match status_f with
           | Some s =>
               if truthy status_f
               then filter (fun f => String.eqb (Finding.status f) s) q
               else q
           | None => q
           end in
  ret (order_by_created_at_desc q).

(** POST /findings/run *)
Definition run_checks (now : nat -> Z) (tenant_id : Z) (current_user : string)
  : Handler (list Finding.t) :=
  user <- require_user current_user ;;
  ensure_user_in_tenant (User.id user) tenant_id ;;;
  (* Clear old open findings for a clean run *)
  execute (delete_open_findings tenant_id) ;;;
  commit ;;;
  rows <- query assets ;;
  let assets := filter (fun a => Asset.tenant_id a =? tenant_id) rows in
  let to_add := flat_map (check_asset tenant_id) assets in
  add_all now 0 to_add ;;;
  commit ;;;
  rows <- query findings ;;
  ret (filter (is_open_of tenant_id) rows).

(** PATCH /findings/{finding_id} *)
Definition update_finding (finding_id : Z) (payload : FindingUpdate.t)
    (current_user : string) : Handler Finding.t :=
  user <- require_user current_user ;;
  rows <- query findings ;;
  match find (fun f => Finding.id f =? finding_id) rows with
  | None => raise (HTTPException 404 "Finding not found")
  | Some f =>
      ensure_user_in_tenant (User.id user) (Finding.tenant_id f) ;;;
      execute (update_finding_status (Finding.id f) (FindingUpdate.status payload)) ;;;
      commit ;;;
      (* db.refresh(f) *)
      rows <- query findings ;;
      match find (fun g => Finding.id g =? Finding.id f) rows with
      | Some f' => ret f'
      | None => ret f
      end
  end.

(** *** Sequences of requests *)

Inductive Request :=
| Register (now : Z) (payload : UserCreate.t)
| CreateTenant (now : Z) (payload : TenantCreate.t) (current_user : string)
| ListMyTenants (current_user : string)
| CreateAsset (now : Z) (payload : AssetCreate.t Dict) (current_user : string)
| ListAssets (tenant_id : Z) (current_user : string)
| DeleteAsset (asset_id : Z) (current_user : string)
| ListFindings (tenant_id : Z) (status_f : option string) (current_user : string)
| RunChecks (now : nat -> Z) (tenant_id : Z) (current_user : string)
| UpdateFinding (finding_id : Z) (payload : FindingUpdate.t) (current_user : string).

(** The database after one request. *)
Definition step (db : DB) (r : Request) : DB :=
  match r with
  | Register now p => store (serve (register now p) db)
  | CreateTenant now p u => store (serve (create_tenant now p u) db)
  | ListMyTenants u => store (serve (list_my_tenants u) db)
  | CreateAsset now p u => store (serve (create_asset now p u) db)
  | ListAssets t u => store (serve (list_assets t u) db)
  | DeleteAsset a u => store (serve (delete_asset a u) db)
  | ListFindings t s u => store (serve (list_findings t s u) db)
  | RunChecks now t u => store (serve (run_checks now t u) db)
  | UpdateFinding f p u => store (serve (update_finding f p u) db)
  end.

(** The database after a sequence of requests, starting from the empty
    schema. *)
Definition after (rs : list Request) : DB := fold_left step rs init_db.

End Api.

Arguments Register {Dict}.
Arguments CreateTenant {Dict}.
Arguments ListMyTenants {Dict}.
Arguments CreateAsset {Dict}.
Arguments ListAssets {Dict}.
Arguments DeleteAsset {Dict}.
Arguments ListFindings {Dict}.
Arguments RunChecks {Dict}.
Arguments UpdateFinding {Dict}.

(* ------------------------------------------------------------------ *)
(** ** Vocabulary of the specification *)

(** The row [get_user_by_email] resolves the caller to. *)
Definition user_of (db : DB) (email : string) : option User.t :=
  find (fun u => String.eqb (User.email u) email) (users db).

(** A Membership row links the user to the tenant. *)
Definition Member (db : DB) (user_id tenant_id : Z) : Prop :=
  exists l, In l (user_tenants db)
            /\ UserTenant.user_id l = user_id
            /\ UserTenant.tenant_id l = tenant_id.

(** [SELECT ... WHERE id = ?] followed by [first()]. *)
Definition asset_by_id (db : DB) (pk : Z) : option Asset.t :=
  find (fun a => Asset.id a =? pk) (assets db).

Definition finding_by_id (db : DB) (pk : Z) : option Finding.t :=
  find (fun f => Finding.id f =? pk) (findings db).

(** The transient findings one run generates: [to_add] after the loop. *)
Definition to_add (tenant_id : Z) (db : DB) : list Finding.transient :=
  flat_map (check_asset tenant_id)
           (filter (fun a => Asset.tenant_id a =? tenant_id) (assets db)).

(** The database after [add_all] flushed [l]. *)
Fixpoint flush (now : nat -> Z) (k : nat) (l : list Finding.transient) (db : DB)
  : DB :=
  match l with
  | [] => db
  | f :: rest => flush now (S k) rest (fst (insert_finding (now k) f db))
  end.

(** The database a permitted [run_checks] ends with. *)
Definition rerun (now : nat -> Z) (tenant_id : Z) (db : DB) : DB :=
  let cleared := delete_open_findings tenant_id db in
  flush now 0 (to_add tenant_id cleared) cleared.

(** A rule match: which asset, which severity, which title. *)
Definition rule_match (f : Finding.t) : Z * string * string :=
  (Finding.asset_id f, Finding.severity f, Finding.title f).

Definition transient_match (f : Finding.transient) : Z * string * string :=
  (Finding.new_asset_id f, Finding.new_severity f, Finding.new_title f).

Definition of_asset (a : Asset.t) (l : list Finding.t) : list Finding.t :=
  filter (fun f => Finding.asset_id f =? Asset.id a) l.

(** What a caller sees of a finding produced by a rule. *)
Definition summary (f : Finding.t) : string * string * string :=
  (Finding.severity f, Finding.title f, Finding.status f).

(** Primary keys: positive, below the sequence, unique. *)
Record keys_ok (db : DB) : Prop := mk_keys_ok
  { asset_pk : forall a, In a (assets db) -> 0 < Asset.id a < assets_seq db;
    asset_unique : NoDup (map Asset.id (assets db));
    finding_pk : forall f, In f (findings db) -> 0 < Finding.id f < findings_seq db;
    finding_unique : NoDup (map Finding.id (findings db)) }.

(** A finding and the asset it references belong to the same tenant. *)
Definition finding_matches_asset (db : DB) (f : Finding.t) : Prop :=
  exists a, In a (assets db)
            /\ Asset.id a = Finding.asset_id f
            /\ Asset.tenant_id a = Finding.tenant_id f.

Definition findings_consistent (db : DB) : Prop :=
  forall f, In f (findings db) ->
    finding_matches_asset db f
    /\ (forall a, In a (assets db) -> Asset.id a = Finding.asset_id f ->
                  Asset.tenant_id a = Finding.tenant_id f).

(** The request refused by the authorization guard: 403, nothing committed,
    the database as it was. *)
Definition refused {A} (db : DB) : Outcome A :=
  mkOutcome (Raised Forbidden) [] db.

Definition transient_summary (f : Finding.transient) : string * string * string :=
  (Finding.new_severity f, Finding.new_title f, Finding.new_status f).

(** Every state a request publishes is the state it ends with: no
    intermediate state becomes visible to another session. *)
Definition atomic {A} (o : Outcome A) : Prop :=
  forall mid, In mid (committed o) -> mid = store o.

(** The HTTP status of an error response. *)
Definition status_code_of {A} (o : Outcome A) : option Z :=
  match response o with
  | Return _ => None
  | Raised e => Some (status_code e)
  end.

(** Newest first. *)
Fixpoint newest_first (l : list Finding.t) : Prop :=
  match l with
  | [] => True
  | f :: rest =>
      (forall g, In g rest -> Finding.created_at g <= Finding.created_at f)
      /\ newest_first rest
  end.

(** The invariant of the store: sound primary keys, and every finding
    references a stored asset of its own tenant. *)
Record store_inv (db : DB) : Prop := mk_store_inv
  { inv_keys : keys_ok db;
    inv_assets_seq : 0 < assets_seq db;
    inv_findings_seq : 0 < findings_seq db;
    inv_refs : forall f, In f (findings db) -> finding_matches_asset db f }.

(** The ways one request can change the database. *)
Inductive change (db : DB) : DB -> Prop :=
| unchanged : change db db
| side_tables db' :
    assets db' = assets db -> findings db' = findings db ->
    assets_seq db' = assets_seq db -> findings_seq db' = findings_seq db ->
    change db db'
| asset_added now tenant_id type name region config_json :
    change db (fst (insert_asset now tenant_id type name region config_json db))
| asset_deleted a : change db (delete_asset_row a db)
| rechecked now tenant_id : change db (rerun now tenant_id db)
| status_set pk s : change db (update_finding_status pk s db).

(* ------------------------------------------------------------------ *)
(** ** A small installation used in the examples *)

Definition alice : User.t := User.mk 1 "alice@acme.io" "$2b$alice" true 10.
Definition bob : User.t := User.mk 2 "bob@other.io" "$2b$bob" true 11.
Definition acme : Tenant.t := Tenant.mk 1 "acme" 12.
Definition alice_owns_acme : UserTenant.t := UserTenant.mk 1 1 1 "owner".

Definition app_data : Asset.t :=
  Asset.mk 1 1 "aws_s3_bucket" "app-data" None None 13.
Definition app_data_prod : Asset.t :=
  Asset.mk 2 1 "aws_s3_bucket" "app-data-prod" (Some "us-east-1") None 14.

(** Two users, one tenant owned by alice, two buckets, no finding yet. *)
Definition demo_db : DB :=
  mkDB [alice; bob] [acme] [alice_owns_acme] [app_data; app_data_prod] []
       3 2 2 3 1.

(** A clock that advances by one at every reading, starting at [t0]. *)
Definition ticking (t0 : Z) (k : nat) : Z := t0 + Z.of_nat k.

(** [demo_db] after alice ran the checks once. *)
Definition scanned_db : DB :=
  Eval vm_compute in store (serve (run_checks (ticking 100) 1 "alice@acme.io") demo_db).

(** The two findings of that run. *)
Definition low_finding : Finding.t :=
  Finding.mk 1 1 1 "low" "S3 bucket not tagged as production"
    (Some "Bucket 'app-data' does not end with '-prod'.") "open" 100.
Definition medium_finding : Finding.t :=
  Finding.mk 2 1 1 "medium" "Asset has no region set"
    (Some "Asset 'app-data' has no region specified.") "open" 101.

(** ... and after she resolved finding 1. *)
Definition triaged_db : DB :=
  Eval vm_compute in
    store (serve (update_finding 1 (FindingUpdate.mk "resolved") "alice@acme.io")
                 scanned_db).

(** The end-to-end scenario of the specification, as a sequence of requests
    ([config_json] objects are taken as their JSON text). *)
Definition e2e : list (Request string) :=
  [ Register 1 (UserCreate.mk "a@x.com" "pw");
    CreateTenant 2 (TenantCreate.mk "acme") "a@x.com";
    CreateAsset 3 (AssetCreate.mk 1 "aws_s3_bucket" "logs" None None) "a@x.com";
    RunChecks (ticking 4) 1 "a@x.com";
    UpdateFinding 1 (FindingUpdate.mk "resolved") "a@x.com";
    RunChecks (ticking 6) 1 "a@x.com" ].

(* ------------------------------------------------------------------ *)
(** ** main.py: login *)

Module TokenOut.
Record t := mk { access_token : string; token_type : string }.
End TokenOut.

(** The two fields of the form that [login] reads. *)
Module OAuth2PasswordRequestForm.
Record t := mk { username : string; password : string }.
End OAuth2PasswordRequestForm.

Section Auth.

(** [auth.verify_password] ([passlib]) and [auth.create_access_token] (the
    JWT for a subject, as issued at the time of the request). *)
Variable verify_password : string -> string -> bool.
Variable create_access_token : string -> string.

(** POST /auth/login; [not user or not verify_password(...)] tests the
    password only when the user row exists. *)
Definition login (form_data : OAuth2PasswordRequestForm.t) : Handler TokenOut.t :=
  rows <- query users ;;
  match find (fun u => String.eqb (User.email u)
                         (OAuth2PasswordRequestForm.username form_data)) rows with
  | None => raise (HTTPException 401 "Invalid credentials")
  | Some user =>
      if verify_password (OAuth2PasswordRequestForm.password form_data)
                         (User.password_hash user)
      then ret (TokenOut.mk (create_access_token (User.email user)) "bearer")
      else raise (HTTPException 401 "Invalid credentials")
  end.

End Auth.

(* ------------------------------------------------------------------ *)
(** ** Further vocabulary *)

(** The row the duplicate-name test of [create_tenant] finds. *)
Definition tenant_named (db : DB) (name : string) : option Tenant.t :=
  find (fun t => String.eqb (Tenant.name t) name) (tenants db).

(** The tenant sequence is ahead of every tenant id in use. *)
Definition tenant_seq_fresh (db : DB) : Prop :=
  (forall t, In t (tenants db) -> Tenant.id t < tenants_seq db)
  /\ (forall l, In l (user_tenants db) -> UserTenant.tenant_id l < tenants_seq db).

(** The rows [list_findings] selects before it sorts them. *)
Definition selected (tenant_id : Z) (status_f : option string) (f : Finding.t)
  : bool :=
  (Finding.tenant_id f =? tenant_id)
  && match status_f with
     | Some s => if truthy status_f then String.eqb (Finding.status f) s else true
     | None => true
     end.

(** The rows [list_my_tenants] returns for a user id. *)
Definition tenants_of (db : DB) (user_id : Z) : list Tenant.t :=
  flat_map (fun t => map (fun _ => t)
                       (filter (is_link user_id (Tenant.id t)) (user_tenants db)))
           (tenants db).

(** What the schema's constraints and the handlers together maintain on the
    identity tables and on the assets. *)
Record schema_inv (db : DB) : Prop := mk_schema_inv
  { sc_user_pk : forall u, In u (users db) -> 0 < User.id u < users_seq db;
    sc_users_seq : 0 < users_seq db;
    sc_user_unique : NoDup (map User.id (users db));
    sc_email_unique : NoDup (map User.email (users db));
    sc_tenant_pk : forall t, In t (tenants db) -> 0 < Tenant.id t < tenants_seq db;
    sc_tenants_seq : 0 < tenants_seq db;
    sc_tenant_unique : NoDup (map Tenant.id (tenants db));
    sc_name_unique : NoDup (map Tenant.name (tenants db));
    sc_links : map UserTenant.tenant_id (user_tenants db)
               = map Tenant.id (tenants db);
    sc_owner : forall l, In l (user_tenants db) ->
                 UserTenant.role l = "owner"
                 /\ exists u, In u (users db) /\ User.id u = UserTenant.user_id l;
    sc_asset_tenant : forall a, In a (assets db) ->
                 exists t, In t (tenants db) /\ Tenant.id t = Asset.tenant_id a }.

(** The ways one request can change the database, with what the handler
    established before it wrote. *)
Inductive evolves (db : DB) : DB -> Prop :=
| ev_none : evolves db db
| ev_register now email password_hash :
    user_of db email = None ->
    evolves db (fst (insert_user now email password_hash db))
| ev_create_tenant now name u :
    In u (users db) -> tenant_named db name = None ->
    evolves db (fst (insert_user_tenant (User.id u) (tenants_seq db) "owner"
                       (fst (insert_tenant now name db))))
| ev_create_asset now user_id tenant_id type name region config_json :
    Member db user_id tenant_id ->
    evolves db (fst (insert_asset now tenant_id type name region config_json db))
| ev_delete_asset a : In a (assets db) -> evolves db (delete_asset_row a db)
| ev_run_checks now tenant_id : evolves db (rerun now tenant_id db)
| ev_update_finding pk s : evolves db (update_finding_status pk s db).

(** The response to a caller without a user row: 404, nothing committed. *)
Definition user_not_found {A} (db : DB) : Outcome A :=
  mkOutcome (Raised (HTTPException 404 "User not found")) [] db.

(** Stand-ins for the password hash and the token in the examples. *)
Definition demo_hash (plain : string) : string := String.append "$2b$" plain.
Definition demo_verify (plain hashed : string) : bool :=
  String.eqb hashed (demo_hash plain).
Definition demo_token (sub : string) : string := String.append "jwt:" sub.

(* ------------------------------------------------------------------ *)
(** * Properties *)

(** ** The authorization guard *)

Lemma is_link_true user_id tenant_id l :
  is_link user_id tenant_id l = true <->
  UserTenant.user_id l = user_id /\ UserTenant.tenant_id l = tenant_id.
Proof.
  unfold is_link. rewrite andb_true_iff, !Z.eqb_eq. tauto.
Qed.

Lemma guard_passes db user_id tenant_id :
  Member db user_id tenant_id ->
  exists l, find (is_link user_id tenant_id) (user_tenants db) = Some l.
Proof.
  intros (l & Hin & Hu & Ht).
  destruct (find (is_link user_id tenant_id) (user_tenants db)) as [l'|] eqn:E.
  - now exists l'.
  - apply (find_none _ _ E) in Hin.
    assert (is_link user_id tenant_id l = true) by now apply is_link_true.
    congruence.
Qed.

Lemma guard_blocks db user_id tenant_id :
  ~ Member db user_id tenant_id ->
  find (is_link user_id tenant_id) (user_tenants db) = None.
Proof.
  intros Hno.
  destruct (find (is_link user_id tenant_id) (user_tenants db)) as [l|] eqn:E;
    [|reflexivity].
  apply find_some in E. destruct E as [Hin Hl].
  apply is_link_true in Hl. exfalso. apply Hno. now exists l.
Qed.

(** Unfolds a handler down to the session operations. *)
Ltac open_handler :=
  unfold serve, require_user, get_user_by_email, ensure_user_in_tenant,
    bind, query, ret, raise, execute, commit, add;
  cbn [txn commits fst snd].

(** Rewrites with the caller's row and the guard's verdict. *)
Ltac as_caller Huser Hlink :=
  unfold user_of in Huser; open_handler; rewrite ?Huser;
  cbn [txn commits fst snd]; rewrite ?Hlink; cbn [txn commits fst snd app last].

(** ** Lookup by primary key under unique keys *)

Lemma find_by_key {A} (key : A -> Z) (l : list A) (x : A) :
  NoDup (map key l) -> In x l ->
  find (fun y => key y =? key x) l = Some x.
Proof.
  induction l as [|y l IH]; intros Hnd Hin; [contradiction|].
  cbn in Hnd |- *. inversion Hnd as [|? ? Hnotin Hnd']; subst.
  destruct Hin as [->|Hin].
  - now rewrite Z.eqb_refl.
  - destruct (Z.eqb_spec (key y) (key x)) as [E|_].
    + exfalso. apply Hnotin. rewrite E. now apply in_map.
    + now apply IH.
Qed.

Lemma asset_by_id_unique db a :
  keys_ok db -> In a (assets db) -> asset_by_id db (Asset.id a) = Some a.
Proof.
  intros K Hin. unfold asset_by_id.
  exact (find_by_key Asset.id _ _ (asset_unique _ K) Hin).
Qed.

Lemma finding_by_id_unique db f :
  keys_ok db -> In f (findings db) -> finding_by_id db (Finding.id f) = Some f.
Proof.
  intros K Hin. unfold finding_by_id.
  exact (find_by_key Finding.id _ _ (finding_unique _ K) Hin).
Qed.

(** ** What [add_all] does to the session *)

Lemma add_all_run now l : forall k s,
  add_all now k l s = (Return tt, mkSession (flush now k l (txn s)) (commits s)).
Proof.
  induction l as [|f l IH]; intros k s; cbn [add_all flush].
  - destruct s; reflexivity.
  - unfold bind, add. cbn. rewrite IH. reflexivity.
Qed.

Lemma flush_findings now l : forall k db,
  findings (flush now k l db)
  = (findings db ++ persist_all now k (findings_seq db) l)%list.
Proof.
  induction l as [|f l IH]; intros k db; cbn [flush persist_all].
  - now rewrite app_nil_r.
  - rewrite IH. cbn. now rewrite <- app_assoc.
Qed.

Lemma flush_frame now l : forall k db,
  users (flush now k l db) = users db
  /\ tenants (flush now k l db) = tenants db
  /\ user_tenants (flush now k l db) = user_tenants db
  /\ assets (flush now k l db) = assets db
  /\ assets_seq (flush now k l db) = assets_seq db
  /\ findings_seq (flush now k l db) = findings_seq db + Z.of_nat (List.length l).
Proof.
  induction l as [|f l IH]; intros k db; cbn [flush List.length].
  - cbn. repeat split; lia.
  - destruct (IH (S k) (fst (insert_finding (now k) f db)))
      as (-> & -> & -> & -> & -> & ->).
    cbn. repeat split; lia.
Qed.


Lemma persist_all_in now l : forall k pk g,
  In g (persist_all now k pk l) ->
  exists f, In f l
    /\ Finding.tenant_id g = Finding.new_tenant_id f
    /\ Finding.asset_id g = Finding.new_asset_id f
    /\ Finding.severity g = Finding.new_severity f
    /\ Finding.title g = Finding.new_title f
    /\ Finding.status g = Finding.new_status f
    /\ pk <= Finding.id g < pk + Z.of_nat (List.length l).
Proof.
  induction l as [|f l IH]; intros k pk g Hin; [contradiction|].
  cbn [persist_all] in Hin. destruct Hin as [<-|Hin].
  - exists f. cbn. repeat split; try tauto; lia.
  - destruct (IH _ _ _ Hin) as (f' & Hf' & ? & ? & ? & ? & ? & ?).
    exists f'. cbn [List.length]. repeat split; try tauto; try lia. now right.
Qed.

(** ** Outcome of each guarded endpoint *)

Lemma run_checks_permitted db now tenant_id email u :
  user_of db email = Some u -> Member db (User.id u) tenant_id ->
  serve (run_checks now tenant_id email) db
  = mkOutcome (Return (filter (is_open_of tenant_id)
                              (findings (rerun now tenant_id db))))
              [delete_open_findings tenant_id db; rerun now tenant_id db]
              (rerun now tenant_id db).
Proof.
  intros Hu Hm. destruct (guard_passes _ _ _ Hm) as [l Hl].
  unfold run_checks. as_caller Hu Hl.
  rewrite add_all_run. reflexivity.
Qed.

Lemma run_checks_refused db now tenant_id email u :
  user_of db email = Some u -> ~ Member db (User.id u) tenant_id ->
  serve (run_checks now tenant_id email) db = refused db.
Proof.
  intros Hu Hm. apply guard_blocks in Hm.
  unfold run_checks. as_caller Hu Hm. reflexivity.
Qed.

Lemma run_checks_unknown_user db now tenant_id email :
  user_of db email = None ->
  serve (run_checks now tenant_id email) db
  = mkOutcome (Raised (HTTPException 404 "User not found")) [] db.
Proof.
  intros Hu. unfold run_checks. as_caller Hu Hu. reflexivity.
Qed.

(** Whatever the caller, [run_checks] leaves either the database it found or
    the recomputed one. *)
Lemma run_checks_store db now tenant_id email :
  store (serve (run_checks now tenant_id email) db) = db
  \/ store (serve (run_checks now tenant_id email) db) = rerun now tenant_id db.
Proof.
  destruct (user_of db email) as [u|] eqn:Hu.
  - destruct (find (is_link (User.id u) tenant_id) (user_tenants db)) as [l|] eqn:Hl.
    + right. erewrite run_checks_permitted; eauto.
      apply find_some in Hl. destruct Hl as [Hin Hl]. apply is_link_true in Hl.
      now exists l.
    + left. unfold run_checks. as_caller Hu Hl. reflexivity.
  - left. now rewrite run_checks_unknown_user.
Qed.

Lemma create_asset_refused Dict dumps db now (payload : AssetCreate.t Dict) email u :
  user_of db email = Some u ->
  ~ Member db (User.id u) (AssetCreate.tenant_id payload) ->
  serve (create_asset Dict dumps now payload email) db = refused db.
Proof.
  intros Hu Hm. apply guard_blocks in Hm.
  unfold create_asset. as_caller Hu Hm. reflexivity.
Qed.

Lemma list_assets_refused db tenant_id email u :
  user_of db email = Some u -> ~ Member db (User.id u) tenant_id ->
  serve (list_assets tenant_id email) db = refused db.
Proof.
  intros Hu Hm. apply guard_blocks in Hm.
  unfold list_assets. as_caller Hu Hm. reflexivity.
Qed.

Lemma list_findings_refused db tenant_id status_f email u :
  user_of db email = Some u -> ~ Member db (User.id u) tenant_id ->
  serve (list_findings tenant_id status_f email) db = refused db.
Proof.
  intros Hu Hm. apply guard_blocks in Hm.
  unfold list_findings. as_caller Hu Hm. reflexivity.
Qed.

Lemma delete_asset_refused db asset_id email u a :
  0 < asset_id ->
  user_of db email = Some u ->
  asset_by_id db asset_id = Some a ->
  ~ Member db (User.id u) (Asset.tenant_id a) ->
  serve (delete_asset asset_id email) db = refused db.
Proof.
  intros Hpos Hu Ha Hm. apply guard_blocks in Hm.
  unfold delete_asset, asset_by_id in *.
  destruct (Z.leb_spec asset_id 0) as [|_]; [lia|].
  as_caller Hu Ha. rewrite Hm. reflexivity.
Qed.

Lemma delete_asset_missing db asset_id email u :
  0 < asset_id ->
  user_of db email = Some u ->
  asset_by_id db asset_id = None ->
  serve (delete_asset asset_id email) db
  = mkOutcome (Raised (HTTPException 404 "Asset not found")) [] db.
Proof.
  intros Hpos Hu Ha.
  unfold delete_asset, asset_by_id in *.
  destruct (Z.leb_spec asset_id 0) as [|_]; [lia|].
  as_caller Hu Ha. reflexivity.
Qed.

Lemma delete_asset_invalid db asset_id email :
  asset_id <= 0 ->
  serve (delete_asset asset_id email) db
  = mkOutcome (Raised (RequestValidationError "asset_id")) [] db.
Proof.
  intros Hneg. unfold delete_asset.
  destruct (Z.leb_spec asset_id 0) as [_|]; [|lia].
  reflexivity.
Qed.

Lemma delete_asset_permitted db asset_id email u a :
  0 < asset_id ->
  user_of db email = Some u ->
  asset_by_id db asset_id = Some a ->
  Member db (User.id u) (Asset.tenant_id a) ->
  serve (delete_asset asset_id email) db
  = mkOutcome (Return tt) [delete_asset_row a db] (delete_asset_row a db).
Proof.
  intros Hpos Hu Ha Hm. destruct (guard_passes _ _ _ Hm) as [l Hl].
  unfold delete_asset, asset_by_id in *.
  destruct (Z.leb_spec asset_id 0) as [|_]; [lia|].
  as_caller Hu Ha. rewrite Hl. reflexivity.
Qed.

Lemma update_finding_refused db finding_id payload email u f :
  user_of db email = Some u ->
  finding_by_id db finding_id = Some f ->
  ~ Member db (User.id u) (Finding.tenant_id f) ->
  serve (update_finding finding_id payload email) db = refused db.
Proof.
  intros Hu Hf Hm. apply guard_blocks in Hm.
  unfold update_finding, finding_by_id in *.
  as_caller Hu Hf. rewrite Hm. reflexivity.
Qed.

Lemma update_finding_missing db finding_id payload email u :
  user_of db email = Some u ->
  finding_by_id db finding_id = None ->
  serve (update_finding finding_id payload email) db
  = mkOutcome (Raised (HTTPException 404 "Finding not found")) [] db.
Proof.
  intros Hu Hf. unfold update_finding, finding_by_id in *.
  as_caller Hu Hf. reflexivity.
Qed.

Lemma find_after_update pk s (l : list Finding.t) :
  find (fun g => Finding.id g =? pk)
       (map (fun f => if Finding.id f =? pk then Finding.set_status s f else f) l)
  = option_map (Finding.set_status s) (find (fun g => Finding.id g =? pk) l).
Proof.
  induction l as [|f l IH]; [reflexivity|].
  cbn [map find]. destruct (Z.eqb_spec (Finding.id f) pk) as [E|E].
  - cbn [Finding.set_status Finding.id]. rewrite E, Z.eqb_refl. reflexivity.
  - destruct (Z.eqb_spec (Finding.id f) pk); [contradiction|]. exact IH.
Qed.

Lemma update_finding_permitted db finding_id payload email u f :
  user_of db email = Some u ->
  finding_by_id db finding_id = Some f ->
  Member db (User.id u) (Finding.tenant_id f) ->
  let db' := update_finding_status finding_id (FindingUpdate.status payload) db in
  serve (update_finding finding_id payload email) db
  = mkOutcome (Return (Finding.set_status (FindingUpdate.status payload) f))
              [db'] db'.
Proof.
  intros Hu Hf Hm. destruct (guard_passes _ _ _ Hm) as [l Hl].
  assert (Hid : Finding.id f = finding_id).
  { unfold finding_by_id in Hf. apply find_some in Hf. now apply Z.eqb_eq. }
  unfold update_finding, finding_by_id in *.
  as_caller Hu Hf. rewrite Hl. cbn [txn commits app last].
  unfold update_finding_status at 1. cbn [findings set_findings].
  rewrite Hid, find_after_update, Hf. reflexivity.
Qed.

(** ** Primary keys of the example databases *)

Ltac enumerate_rows H :=
  cbn in H; repeat (destruct H as [<-|H]); try contradiction.

Ltac distinct_keys :=
  cbn; repeat (apply NoDup_cons; [cbn; intuition congruence|]); apply NoDup_nil.

Lemma demo_db_keys : keys_ok demo_db.
Proof.
  constructor;
    [ intros x Hin; enumerate_rows Hin; cbn; lia | distinct_keys
    | intros x Hin; enumerate_rows Hin; cbn; lia | distinct_keys ].
Qed.

Lemma scanned_db_keys : keys_ok scanned_db.
Proof.
  constructor;
    [ intros x Hin; enumerate_rows Hin; cbn; lia | distinct_keys
    | intros x Hin; enumerate_rows Hin; cbn; lia | distinct_keys ].
Qed.

Lemma triaged_db_keys : keys_ok triaged_db.
Proof.
  constructor;
    [ intros x Hin; enumerate_rows Hin; cbn; lia | distinct_keys
    | intros x Hin; enumerate_rows Hin; cbn; lia | distinct_keys ].
Qed.

Lemma bob_is_no_member_of_acme db :
  user_tenants db = [alice_owns_acme] -> ~ Member db 2 1.
Proof.
  intros E (l & Hin & Hu & _). rewrite E in Hin.
  destruct Hin as [<-|[]]. discriminate Hu.
Qed.

Lemma alice_is_member_of_acme db :
  user_tenants db = [alice_owns_acme] -> Member db 1 1.
Proof.
  intros E. exists alice_owns_acme. rewrite E. cbn. auto.
Qed.

(* ------------------------------------------------------------------ *)
(** ** C1: tenant isolation *)

(** C1. A user without a Membership row for tenant [T1] is refused with 403
    by every operation scoped to [T1] -- create_asset, list_assets,
    run_checks, list_findings, and delete_asset / update_finding on any asset
    or finding owned by [T1] -- and the refusal commits nothing: the database
    is left as it was. *)
Theorem tenant_isolation (Dict : Type) (dumps : Dict -> string)
    (db : DB) (email : string) (u2 : User.t) (T1 : Z) :
  keys_ok db ->
  user_of db email = Some u2 ->
  ~ Member db (User.id u2) T1 ->
  (forall now payload,
      AssetCreate.tenant_id payload = T1 ->
      serve (create_asset Dict dumps now payload email) db = refused db)
  /\ serve (list_assets T1 email) db = refused db
  /\ (forall now, serve (run_checks now T1 email) db = refused db)
  /\ (forall status_f, serve (list_findings T1 status_f email) db = refused db)
  /\ (forall a, In a (assets db) -> Asset.tenant_id a = T1 ->
                serve (delete_asset (Asset.id a) email) db = refused db)
  /\ (forall f payload, In f (findings db) -> Finding.tenant_id f = T1 ->
                serve (update_finding (Finding.id f) payload email) db = refused db).
Proof.
  intros K Hu Hno. repeat split.
  - intros now payload <-. now apply create_asset_refused with (u := u2).
  - now apply list_assets_refused with (u := u2).
  - intros now. now apply run_checks_refused with (u := u2).
  - intros status_f. now apply list_findings_refused with (u := u2).
  - intros a Hin <-. apply delete_asset_refused with (u := u2) (a := a); auto.
    + apply (asset_pk _ K a Hin).
    + now apply asset_by_id_unique.
  - intros f payload Hin <-.
    apply update_finding_refused with (u := u2) (f := f); auto.
    now apply finding_by_id_unique.
Qed.

(* ------------------------------------------------------------------ *)
(** ** C7: triage accepts any status string *)

(** C7. For an existing finding and any string [s] -- inside or outside
    open / resolved / ignored -- update_finding called by a member of the
    finding's tenant succeeds, returns the finding with status [s], and the
    stored row's status is exactly [s]; nothing else of the row changes. *)
Theorem update_finding_takes_any_status
    (db : DB) (email : string) (u : User.t) (finding_id : Z) (f : Finding.t)
    (s : string) :
  user_of db email = Some u ->
  finding_by_id db finding_id = Some f ->
  Member db (User.id u) (Finding.tenant_id f) ->
  exists f',
    response (serve (update_finding finding_id (FindingUpdate.mk s) email) db)
    = Return f'
    /\ finding_by_id
         (store (serve (update_finding finding_id (FindingUpdate.mk s) email) db))
         finding_id = Some f'
    /\ Finding.status f' = s
    /\ f' = Finding.set_status s f.
Proof.
  intros Hu Hf Hm. exists (Finding.set_status s f).
  rewrite (update_finding_permitted db finding_id (FindingUpdate.mk s) email u f Hu Hf Hm).
  cbn [response store FindingUpdate.status]. repeat split.
  unfold finding_by_id, update_finding_status. cbn [findings set_findings].
  unfold finding_by_id in Hf. now rewrite find_after_update, Hf.
Qed.

(* ------------------------------------------------------------------ *)
(** ** C10: lookup before guard *)

(** C10, as the code has it. For a caller whose user row exists: delete_asset rejects
    an [asset_id <= 0] with a validation error (422) before any lookup;
    for [asset_id > 0] an id that matches no asset yields 404 and an asset of
    a tenant the caller is not a member of yields 403.  update_finding yields
    404 for an id that matches no finding and 403 for a finding of a tenant
    the caller is not a member of.  In each case nothing is committed. *)
Theorem lookup_precedes_guard (db : DB) (email : string) (u : User.t) :
  user_of db email = Some u ->
  (forall asset_id, asset_id <= 0 ->
      serve (delete_asset asset_id email) db
      = mkOutcome (Raised (RequestValidationError "asset_id")) [] db)
  /\ (forall asset_id, 0 < asset_id -> asset_by_id db asset_id = None ->
      serve (delete_asset asset_id email) db
      = mkOutcome (Raised (HTTPException 404 "Asset not found")) [] db)
  /\ (forall asset_id a, 0 < asset_id -> asset_by_id db asset_id = Some a ->
      ~ Member db (User.id u) (Asset.tenant_id a) ->
      serve (delete_asset asset_id email) db = refused db)
  /\ (forall finding_id payload, finding_by_id db finding_id = None ->
      serve (update_finding finding_id payload email) db
      = mkOutcome (Raised (HTTPException 404 "Finding not found")) [] db)
  /\ (forall finding_id payload f, finding_by_id db finding_id = Some f ->
      ~ Member db (User.id u) (Finding.tenant_id f) ->
      serve (update_finding finding_id payload email) db = refused db).
Proof.
  intros Hu. repeat split.
  - intros. now apply delete_asset_invalid.
  - intros. now apply delete_asset_missing with (u := u).
  - intros. now apply delete_asset_refused with (u := u) (a := a).
  - intros. now apply update_finding_missing with (u := u).
  - intros. now apply update_finding_refused with (u := u) (f := f).
Qed.

(* ------------------------------------------------------------------ *)
(** ** The recomputation of [run_checks] *)

Lemma filter_keeps_all {A} (p : A -> bool) (l : list A) :
  (forall x, In x l -> p x = true) -> filter p l = l.
Proof.
  induction l as [|x l IH]; intros H; [reflexivity|].
  cbn. rewrite (H x (or_introl eq_refl)). f_equal. apply IH.
  intros y Hy. apply H. now right.
Qed.

Lemma filter_drops_all {A} (p : A -> bool) (l : list A) :
  (forall x, In x l -> p x = false) -> filter p l = [].
Proof.
  induction l as [|x l IH]; intros H; [reflexivity|].
  cbn. rewrite (H x (or_introl eq_refl)). apply IH.
  intros y Hy. apply H. now right.
Qed.

(** Both rules stamp the run's tenant, the asset at hand and status open. *)
Lemma check_asset_shape tenant_id a d :
  In d (check_asset tenant_id a) ->
  Finding.new_tenant_id d = tenant_id
  /\ Finding.new_asset_id d = Asset.id a
  /\ Finding.new_status d = "open".
Proof.
  unfold check_asset. intros Hin. apply in_app_or in Hin.
  destruct Hin as [Hin|Hin];
    [ destruct (String.eqb (Asset.type a) "aws_s3_bucket"
                && negb (endswith (Asset.name a) "-prod"))
    | destruct (negb (truthy (Asset.region a))) ];
    cbn in Hin; try contradiction;
    destruct Hin as [<-|[]]; cbn; auto.
Qed.

Lemma to_add_shape tenant_id db d :
  In d (to_add tenant_id db) ->
  exists a, In a (assets db) /\ Asset.tenant_id a = tenant_id
            /\ In d (check_asset tenant_id a).
Proof.
  unfold to_add. intros Hin. apply in_flat_map in Hin.
  destruct Hin as (a & Ha & Hd). apply filter_In in Ha.
  destruct Ha as [Ha Ht]. apply Z.eqb_eq in Ht. now exists a.
Qed.

Lemma to_add_covers tenant_id db a d :
  In a (assets db) -> Asset.tenant_id a = tenant_id ->
  In d (check_asset tenant_id a) -> In d (to_add tenant_id db).
Proof.
  intros Ha Ht Hd. unfold to_add. apply in_flat_map. exists a. split; [|exact Hd].
  apply filter_In. split; [exact Ha|]. now apply Z.eqb_eq.
Qed.

Lemma persist_all_covers now l : forall k pk d,
  In d l ->
  exists g, In g (persist_all now k pk l)
    /\ Finding.tenant_id g = Finding.new_tenant_id d
    /\ Finding.status g = Finding.new_status d
    /\ rule_match g = transient_match d.
Proof.
  induction l as [|f l IH]; intros k pk d Hin; [contradiction|].
  cbn [persist_all]. destruct Hin as [->|Hin].
  - eexists. split; [now left|]. cbn. auto.
  - destruct (IH (S k) (pk + 1) d Hin) as (g & Hg & ?).
    exists g. split; [now right|assumption].
Qed.

Lemma persist_all_matches now l : forall k pk,
  map rule_match (persist_all now k pk l) = map transient_match l.
Proof.
  induction l as [|f l IH]; intros k pk; cbn; [reflexivity|].
  now rewrite IH.
Qed.

(** The rows a run adds are open findings of the run's tenant. *)
Lemma new_rows_are_open now tenant_id db k pk g :
  In g (persist_all now k pk (to_add tenant_id db)) ->
  is_open_of tenant_id g = true.
Proof.
  intros Hin. apply persist_all_in in Hin.
  destruct Hin as (d & Hd & Ht & _ & _ & _ & Hs & _).
  apply to_add_shape in Hd. destruct Hd as (a & _ & _ & Hd).
  apply check_asset_shape in Hd. destruct Hd as (Ht' & _ & Hs').
  unfold is_open_of. rewrite Ht, Ht', Hs, Hs', Z.eqb_refl. reflexivity.
Qed.

Lemma rerun_findings now tenant_id db :
  findings (rerun now tenant_id db)
  = (filter (fun f => negb (is_open_of tenant_id f)) (findings db)
     ++ persist_all now 0 (findings_seq db) (to_add tenant_id db))%list.
Proof.
  unfold rerun. rewrite flush_findings. reflexivity.
Qed.

Lemma rerun_frame now tenant_id db :
  users (rerun now tenant_id db) = users db
  /\ tenants (rerun now tenant_id db) = tenants db
  /\ user_tenants (rerun now tenant_id db) = user_tenants db
  /\ assets (rerun now tenant_id db) = assets db
  /\ assets_seq (rerun now tenant_id db) = assets_seq db
  /\ findings_seq (rerun now tenant_id db)
     = findings_seq db + Z.of_nat (List.length (to_add tenant_id db)).
Proof.
  unfold rerun.
  destruct (flush_frame now (to_add tenant_id (delete_open_findings tenant_id db))
              0 (delete_open_findings tenant_id db))
    as (-> & -> & -> & -> & -> & ->).
  repeat split.
Qed.

(** The open findings of the tenant after a run are the rows just added. *)
Lemma rerun_open_findings now tenant_id db :
  filter (is_open_of tenant_id) (findings (rerun now tenant_id db))
  = persist_all now 0 (findings_seq db) (to_add tenant_id db).
Proof.
  rewrite rerun_findings, filter_app.
  rewrite (filter_drops_all (is_open_of tenant_id)
             (filter (fun f => negb (is_open_of tenant_id f)) (findings db))).
  - cbn [app]. apply filter_keeps_all. intros g. apply new_rows_are_open.
  - intros f Hf. apply filter_In in Hf. destruct Hf as [_ Hf].
    now apply negb_true_iff in Hf.
Qed.

(** The rows other than the tenant's open ones are left as they were. *)
Lemma rerun_other_findings now tenant_id db :
  filter (fun f => negb (is_open_of tenant_id f)) (findings (rerun now tenant_id db))
  = filter (fun f => negb (is_open_of tenant_id f)) (findings db).
Proof.
  rewrite rerun_findings, filter_app.
  rewrite (filter_drops_all (fun f => negb (is_open_of tenant_id f))
             (persist_all now 0 (findings_seq db) (to_add tenant_id db))).
  - rewrite app_nil_r. apply filter_keeps_all.
    intros f Hf. apply filter_In in Hf. tauto.
  - intros g Hg. apply new_rows_are_open in Hg. now rewrite Hg.
Qed.

Lemma rerun_same_caller now tenant_id db email :
  user_of (rerun now tenant_id db) email = user_of db email.
Proof.
  unfold user_of. destruct (rerun_frame now tenant_id db) as (-> & _). reflexivity.
Qed.

Lemma rerun_same_members now tenant_id db user_id t :
  Member db user_id t -> Member (rerun now tenant_id db) user_id t.
Proof.
  unfold Member. destruct (rerun_frame now tenant_id db) as (_ & _ & -> & _). auto.
Qed.

Lemma rerun_same_to_add now tenant_id db t :
  to_add t (rerun now tenant_id db) = to_add t db.
Proof.
  unfold to_add. destruct (rerun_frame now tenant_id db) as (_ & _ & _ & -> & _).
  reflexivity.
Qed.

Lemma persist_all_of_asset now pk_asset l : forall k pk,
  map summary
      (filter (fun f => Finding.asset_id f =? pk_asset) (persist_all now k pk l))
  = map transient_summary
        (filter (fun d => Finding.new_asset_id d =? pk_asset) l).
Proof.
  induction l as [|d l IH]; intros k pk; [reflexivity|].
  cbn [persist_all filter Finding.persist Finding.asset_id].
  destruct (Finding.new_asset_id d =? pk_asset); cbn [map]; rewrite IH; reflexivity.
Qed.

Lemma check_asset_own tenant_id a :
  filter (fun d => Finding.new_asset_id d =? Asset.id a) (check_asset tenant_id a)
  = check_asset tenant_id a.
Proof.
  apply filter_keeps_all. intros d Hd. apply check_asset_shape in Hd.
  destruct Hd as (_ & -> & _). apply Z.eqb_refl.
Qed.

Lemma check_asset_other tenant_id a pk :
  Asset.id a <> pk ->
  filter (fun d => Finding.new_asset_id d =? pk) (check_asset tenant_id a) = [].
Proof.
  intros Hne. apply filter_drops_all. intros d Hd. apply check_asset_shape in Hd.
  destruct Hd as (_ & -> & _). now apply Z.eqb_neq.
Qed.

Lemma flat_map_of_asset tenant_id a (l : list Asset.t) :
  NoDup (map Asset.id l) -> In a l ->
  filter (fun d => Finding.new_asset_id d =? Asset.id a)
         (flat_map (check_asset tenant_id) l)
  = check_asset tenant_id a.
Proof.
  induction l as [|y l IH]; intros Hnd Hin; [contradiction|].
  cbn [flat_map]. rewrite filter_app.
  cbn [map] in Hnd. inversion Hnd as [|? ? Hnotin Hnd']; subst.
  destruct Hin as [->|Hin].
  - rewrite check_asset_own.
    rewrite (filter_drops_all _ (flat_map (check_asset tenant_id) l)).
    + apply app_nil_r.
    + intros d Hd. apply in_flat_map in Hd. destruct Hd as (z & Hz & Hd).
      apply check_asset_shape in Hd. destruct Hd as (_ & -> & _).
      apply Z.eqb_neq. intros E. apply Hnotin. rewrite <- E. now apply in_map.
  - rewrite check_asset_other, IH; auto.
    intros E. apply Hnotin. rewrite E. now apply in_map.
Qed.

Lemma filter_keys_unique {A} (key : A -> Z) (p : A -> bool) (l : list A) :
  NoDup (map key l) -> NoDup (map key (filter p l)).
Proof.
  induction l as [|x l IH]; intros Hnd; [constructor|].
  cbn [map] in Hnd. inversion Hnd as [|? ? Hnotin Hnd']; subst.
  cbn [filter]. destruct (p x); [|now apply IH].
  cbn [map]. constructor; [|now apply IH].
  intros Hin. apply Hnotin. apply in_map_iff in Hin.
  destruct Hin as (y & Hy & Hin). apply filter_In in Hin.
  apply in_map_iff. exists y. tauto.
Qed.

(** The findings a run reports for one asset are the matches of the two
    rules on that asset, in rule order. *)
Lemma rerun_of_asset now tenant_id db a :
  keys_ok db -> In a (assets db) -> Asset.tenant_id a = tenant_id ->
  map summary
      (of_asset a (filter (is_open_of tenant_id) (findings (rerun now tenant_id db))))
  = map transient_summary (check_asset tenant_id a).
Proof.
  intros K Hin Ht. unfold of_asset.
  rewrite rerun_open_findings, persist_all_of_asset. f_equal.
  unfold to_add. apply flat_map_of_asset.
  - apply filter_keys_unique. apply (asset_unique _ K).
  - apply filter_In. split; [exact Hin|]. now apply Z.eqb_eq.
Qed.

(* ------------------------------------------------------------------ *)
(** ** C2: the two rules on the specification's buckets *)

(** C2. When a member runs the checks on a tenant, the run returns, and among
    the findings it returns: a bucket of the tenant with type
    ["aws_s3_bucket"], name ["app-data"] and no region has exactly two, both
    open -- severity low, "S3 bucket not tagged as production", then severity
    medium, "Asset has no region set" -- while a bucket named
    ["app-data-prod"] in region ["us-east-1"] has none. *)
Theorem run_checks_on_spec_buckets
    (db : DB) (now : nat -> Z) (tenant_id : Z) (email : string) (u : User.t) :
  keys_ok db ->
  user_of db email = Some u ->
  Member db (User.id u) tenant_id ->
  exists r,
    response (serve (run_checks now tenant_id email) db) = Return r
    /\ r = filter (is_open_of tenant_id)
                  (findings (store (serve (run_checks now tenant_id email) db)))
    /\ (forall a, In a (assets db) ->
          Asset.tenant_id a = tenant_id ->
          Asset.type a = "aws_s3_bucket" ->
          Asset.name a = "app-data" ->
          Asset.region a = None ->
          map summary (of_asset a r)
          = [("low", "S3 bucket not tagged as production", "open");
             ("medium", "Asset has no region set", "open")])
    /\ (forall a, In a (assets db) ->
          Asset.tenant_id a = tenant_id ->
          Asset.type a = "aws_s3_bucket" ->
          Asset.name a = "app-data-prod" ->
          Asset.region a = Some "us-east-1" ->
          of_asset a r = []).
Proof.
  intros K Hu Hm.
  rewrite (run_checks_permitted db now tenant_id email u Hu Hm).
  cbn [response store]. eexists. split; [reflexivity|]. split; [reflexivity|].
  split; intros a Hin Ht Htype Hname Hregion.
  - rewrite (rerun_of_asset now tenant_id db a K Hin Ht).
    unfold check_asset. rewrite Htype, Hname, Hregion. reflexivity.
  - apply map_eq_nil with (f := summary).
    rewrite (rerun_of_asset now tenant_id db a K Hin Ht).
    unfold check_asset. rewrite Htype, Hname, Hregion. reflexivity.
Qed.

(* ------------------------------------------------------------------ *)
(** ** C3: triaged findings survive a run *)

Lemma not_open_is_kept tenant_id f :
  Finding.status f <> "open" -> negb (is_open_of tenant_id f) = true.
Proof.
  intros Hs. unfold is_open_of. apply negb_true_iff, andb_false_iff. right.
  now apply String.eqb_neq.
Qed.

(** C3. Whoever calls run_checks for a tenant, and whether or not the call is
    permitted: the rows other than that tenant's open findings are after the
    run exactly the rows they were before, in the same order; so every
    finding with status resolved or ignored, of this or any other tenant, is
    still stored unaltered, and a row that is gone was an open finding of
    the tenant. *)
Theorem run_checks_keeps_triaged
    (db : DB) (now : nat -> Z) (tenant_id : Z) (email : string) :
  filter (fun f => negb (is_open_of tenant_id f))
         (findings (store (serve (run_checks now tenant_id email) db)))
  = filter (fun f => negb (is_open_of tenant_id f)) (findings db)
  /\ (forall f, In f (findings db) ->
        Finding.status f = "resolved" \/ Finding.status f = "ignored" ->
        In f (findings (store (serve (run_checks now tenant_id email) db))))
  /\ (forall f, In f (findings db) ->
        ~ In f (findings (store (serve (run_checks now tenant_id email) db))) ->
        Finding.tenant_id f = tenant_id /\ Finding.status f = "open").
Proof.
  assert (Hframe :
    filter (fun f => negb (is_open_of tenant_id f))
           (findings (store (serve (run_checks now tenant_id email) db)))
    = filter (fun f => negb (is_open_of tenant_id f)) (findings db)).
  { destruct (run_checks_store db now tenant_id email) as [-> | ->];
      [reflexivity|apply rerun_other_findings]. }
  assert (Hkept : forall f, In f (findings db) ->
            negb (is_open_of tenant_id f) = true ->
            In f (findings (store (serve (run_checks now tenant_id email) db)))).
  { intros f Hin Hf.
    assert (H : In f (filter (fun f => negb (is_open_of tenant_id f)) (findings db)))
      by (apply filter_In; auto).
    rewrite <- Hframe in H. apply filter_In in H. tauto. }
  split; [exact Hframe|]. split.
  - intros f Hin Hs. apply Hkept; [exact Hin|].
    apply not_open_is_kept. destruct Hs as [-> | ->]; discriminate.
  - intros f Hin Hgone.
    destruct (is_open_of tenant_id f) eqn:Hopen.
    + unfold is_open_of in Hopen. apply andb_true_iff in Hopen.
      destruct Hopen as [Ht Hs]. apply Z.eqb_eq in Ht. apply String.eqb_eq in Hs.
      auto.
    + exfalso. apply Hgone. apply Hkept; [exact Hin|]. now rewrite Hopen.
Qed.

(* ------------------------------------------------------------------ *)
(** ** C4: a second run over unchanged assets *)

(** C4. Two runs in succession by a member, with nothing in between: both
    return, and the open findings they return show the same rule matches --
    the same (asset, severity, title) triples, in the same order, hence the
    same multiset -- whatever the clocks and the primary keys. *)
Theorem run_checks_twice_same_matches
    (db : DB) (now1 now2 : nat -> Z) (tenant_id : Z) (email : string) (u : User.t) :
  user_of db email = Some u ->
  Member db (User.id u) tenant_id ->
  exists r1 r2,
    response (serve (run_checks now1 tenant_id email) db) = Return r1
    /\ response (serve (run_checks now2 tenant_id email)
                       (store (serve (run_checks now1 tenant_id email) db)))
       = Return r2
    /\ map rule_match r1 = map rule_match r2
    /\ Permutation (map rule_match r1) (map rule_match r2).
Proof.
  intros Hu Hm.
  rewrite (run_checks_permitted db now1 tenant_id email u Hu Hm).
  cbn [response store].
  rewrite (run_checks_permitted (rerun now1 tenant_id db) now2 tenant_id email u).
  - cbn [response]. do 2 eexists. split; [reflexivity|]. split; [reflexivity|].
    rewrite !rerun_open_findings, !persist_all_matches, rerun_same_to_add.
    split; [reflexivity|apply Permutation_refl].
  - now rewrite rerun_same_caller.
  - now apply rerun_same_members.
Qed.

(* ------------------------------------------------------------------ *)
(** ** C5: a triaged finding is duplicated by the next run *)

(** C5. Let [f] be a stored finding whose status is not open, let [a] be an
    asset of the tenant, and let one of the rules still match [a] with the
    asset, severity and title of [f].  After a member's run_checks, [f] is
    still stored as it was, and next to it there is a different row: an open
    finding of the tenant with the same asset, severity and title, which the
    run also returns. *)
Theorem rerun_duplicates_triaged_finding
    (db : DB) (now : nat -> Z) (tenant_id : Z) (email : string) (u : User.t)
    (f : Finding.t) (a : Asset.t) (d : Finding.transient) :
  user_of db email = Some u ->
  Member db (User.id u) tenant_id ->
  In f (findings db) ->
  Finding.status f <> "open" ->
  In a (assets db) ->
  Asset.tenant_id a = tenant_id ->
  In d (check_asset tenant_id a) ->
  rule_match f = transient_match d ->
  In f (findings (store (serve (run_checks now tenant_id email) db)))
  /\ exists f' r,
       response (serve (run_checks now tenant_id email) db) = Return r
       /\ In f' r
       /\ In f' (findings (store (serve (run_checks now tenant_id email) db)))
       /\ f' <> f
       /\ Finding.status f' = "open"
       /\ Finding.tenant_id f' = tenant_id
       /\ Finding.asset_id f' = Asset.id a
       /\ rule_match f' = rule_match f.
Proof.
  intros Hu Hm Hf Hs Ha Ht Hd Hmatch.
  rewrite (run_checks_permitted db now tenant_id email u Hu Hm).
  cbn [response store]. split.
  - rewrite rerun_findings. apply in_or_app. left.
    apply filter_In. split; [exact Hf|now apply not_open_is_kept].
  - pose proof (to_add_covers tenant_id db a d Ha Ht Hd) as Hd'.
    destruct (persist_all_covers now (to_add tenant_id db) 0 (findings_seq db) d Hd')
      as (g & Hg & Hgt & Hgs & Hgm).
    destruct (check_asset_shape tenant_id a d Hd) as (Hdt & Hda & Hds).
    exists g. eexists. split; [reflexivity|].
    rewrite rerun_open_findings. split; [exact Hg|]. split.
    { rewrite rerun_findings. apply in_or_app. now right. }
    split.
    { intros ->. apply Hs. now rewrite Hgs. }
    split; [now rewrite Hgs|]. split; [now rewrite Hgt|]. split.
    + unfold rule_match, transient_match in Hgm. injection Hgm as E _ _.
      now rewrite E.
    + now rewrite Hgm.
Qed.

(* ------------------------------------------------------------------ *)
(** ** C6: what run_checks returns *)

(** The value returned by a permitted run is read back from the stored
    findings after the second commit: all open findings of the tenant, in
    storage order. *)
Lemma run_checks_reads_back db now tenant_id email u :
  user_of db email = Some u -> Member db (User.id u) tenant_id ->
  response (serve (run_checks now tenant_id email) db)
  = Return (filter (is_open_of tenant_id)
                   (findings (store (serve (run_checks now tenant_id email) db)))).
Proof.
  intros Hu Hm. now rewrite (run_checks_permitted db now tenant_id email u Hu Hm).
Qed.

(** C6, evaluated on [demo_db].  With a clock that
    advances between the two inserts, run_checks returns the finding created
    at 100 before the one created at 101, which is not newest first; the same
    open findings listed by list_findings come newest first. *)
Theorem run_checks_returns_storage_order :
  response (serve (run_checks (ticking 100) 1 "alice@acme.io") demo_db)
  = Return [low_finding; medium_finding]
  /\ ~ newest_first [low_finding; medium_finding]
  /\ response (serve (list_findings 1 (Some "open") "alice@acme.io") scanned_db)
     = Return [medium_finding; low_finding]
  /\ newest_first [medium_finding; low_finding].
Proof.
  split; [vm_compute; reflexivity|]. split.
  - cbn. intros [H _]. specialize (H _ (or_introl eq_refl)). cbn in H. lia.
  - split; [vm_compute; reflexivity|].
    cbn. repeat split; try tauto.
    intros g [<-|[]]. cbn. lia.
Qed.

(* ------------------------------------------------------------------ *)
(** ** C9: the commits of run_checks *)

(** C9, as the code has it. A permitted run_checks commits twice.  The first commit
    publishes the database with the tenant's open findings deleted and no new
    finding inserted; the second publishes the final database, with the newly
    generated findings. *)
Theorem run_checks_commits_twice
    (db : DB) (now : nat -> Z) (tenant_id : Z) (email : string) (u : User.t) :
  user_of db email = Some u ->
  Member db (User.id u) tenant_id ->
  committed (serve (run_checks now tenant_id email) db)
  = [delete_open_findings tenant_id db;
     store (serve (run_checks now tenant_id email) db)]
  /\ filter (is_open_of tenant_id) (findings (delete_open_findings tenant_id db)) = []
  /\ findings (store (serve (run_checks now tenant_id email) db))
     = (findings (delete_open_findings tenant_id db)
        ++ persist_all now 0 (findings_seq db) (to_add tenant_id db))%list.
Proof.
  intros Hu Hm.
  rewrite (run_checks_permitted db now tenant_id email u Hu Hm).
  cbn [committed store]. split; [reflexivity|]. split.
  - unfold delete_open_findings. cbn [findings set_findings].
    apply filter_drops_all. intros f Hf. apply filter_In in Hf.
    destruct Hf as [_ Hf]. now apply negb_true_iff in Hf.
  - apply rerun_findings.
Qed.

(* ------------------------------------------------------------------ *)
(** ** C8: findings and their assets belong to the same tenant *)

(** Every request changes the database in one of the listed ways. *)
Ltac split_lookups :=
  repeat first
    [ progress cbn [txn commits fst snd app last store]
    | match goal with
      | |- context [find ?p ?l] => destruct (find p l)
      end ].

Lemma step_change Dict dumps hash db (r : Request Dict) :
  change db (step Dict dumps hash db r).
Proof.
  destruct r; cbn [step].
  - unfold register. open_handler. split_lookups; try apply unchanged.
    apply side_tables; reflexivity.
  - unfold create_tenant. open_handler. split_lookups; try apply unchanged.
    apply side_tables; reflexivity.
  - unfold list_my_tenants. open_handler. split_lookups; apply unchanged.
  - unfold create_asset. open_handler. split_lookups; try apply unchanged.
    apply asset_added.
  - unfold list_assets. open_handler. split_lookups; apply unchanged.
  - unfold delete_asset. destruct (asset_id <=? 0); [apply unchanged|].
    open_handler. split_lookups; try apply unchanged.
    apply asset_deleted.
  - unfold list_findings. open_handler. split_lookups; apply unchanged.
  - destruct (run_checks_store db now tenant_id current_user) as [-> | ->];
      [apply unchanged|apply rechecked].
  - unfold update_finding. open_handler. split_lookups; try apply unchanged.
    all: apply status_set.
Qed.

Lemma same_key_same_row {A} (key : A -> Z) (l : list A) (x y : A) :
  NoDup (map key l) -> In x l -> In y l -> key x = key y -> x = y.
Proof.
  intros Hnd Hx Hy E.
  pose proof (find_by_key key l x Hnd Hx) as Fx.
  pose proof (find_by_key key l y Hnd Hy) as Fy.
  rewrite E in Fx. congruence.
Qed.

Lemma persist_all_keys_unique now l : forall k pk,
  NoDup (map Finding.id (persist_all now k pk l)).
Proof.
  induction l as [|d l IH]; intros k pk; cbn [persist_all map]; constructor.
  - intros Hin. apply in_map_iff in Hin. destruct Hin as (g & Hid & Hg).
    apply persist_all_in in Hg. destruct Hg as (_ & _ & _ & _ & _ & _ & _ & Hb).
    cbn in Hid. lia.
  - apply IH.
Qed.

Lemma inv_side_tables db db' :
  assets db' = assets db -> findings db' = findings db ->
  assets_seq db' = assets_seq db -> findings_seq db' = findings_seq db ->
  store_inv db -> store_inv db'.
Proof.
  intros Ea Ef Eas Efs [[Hapk Hau Hfpk Hfu] Has Hfs Hrefs].
  constructor; [constructor|..]; unfold finding_matches_asset;
    rewrite ?Ea, ?Ef, ?Eas, ?Efs; auto.
Qed.

Lemma inv_asset_added db now tenant_id type name region config_json :
  store_inv db ->
  store_inv (fst (insert_asset now tenant_id type name region config_json db)).
Proof.
  intros [[Hapk Hau Hfpk Hfu] Has Hfs Hrefs].
  constructor; [constructor|..]; cbn [fst insert_asset assets findings
                                       assets_seq findings_seq]; auto.
  - intros a Hin. apply in_app_or in Hin. destruct Hin as [Hin|[<-|[]]].
    + specialize (Hapk a Hin). lia.
    + cbn. lia.
  - rewrite map_app. apply NoDup_app; auto.
    + cbn. constructor; [tauto|constructor].
    + intros x Hx [<-|[]]. apply in_map_iff in Hx.
      destruct Hx as (a & Hid & Hin). specialize (Hapk a Hin). cbn in Hid. lia.
  - lia.
  - intros f Hin. destruct (Hrefs f Hin) as (a & Ha & Hid & Ht).
    exists a. cbn [assets]. split; [apply in_or_app; now left|auto].
Qed.

Lemma inv_asset_deleted db a :
  store_inv db -> store_inv (delete_asset_row a db).
Proof.
  intros [[Hapk Hau Hfpk Hfu] Has Hfs Hrefs].
  constructor; [constructor|..]; cbn [delete_asset_row assets findings
                                       assets_seq findings_seq]; auto.
  - intros x Hin. apply filter_In in Hin. apply Hapk. tauto.
  - now apply filter_keys_unique.
  - intros f Hin. apply filter_In in Hin. apply Hfpk. tauto.
  - now apply filter_keys_unique.
  - intros f Hin. apply filter_In in Hin. destruct Hin as [Hin Hne].
    destruct (Hrefs f Hin) as (x & Hx & Hid & Ht).
    exists x. cbn [assets]. split; [|auto].
    apply filter_In. split; [exact Hx|]. now rewrite Hid.
Qed.

Lemma inv_rechecked db now tenant_id :
  store_inv db -> store_inv (rerun now tenant_id db).
Proof.
  intros [[Hapk Hau Hfpk Hfu] Has Hfs Hrefs].
  destruct (rerun_frame now tenant_id db) as (_ & _ & _ & Ea & Eas & Efs).
  constructor; [constructor|..]; unfold finding_matches_asset;
    rewrite ?Ea, ?Eas, ?Efs, ?rerun_findings; auto.
  - intros f Hin. apply in_app_or in Hin. destruct Hin as [Hin|Hin].
    + apply filter_In in Hin. destruct Hin as [Hin _]. specialize (Hfpk f Hin). lia.
    + apply persist_all_in in Hin.
      destruct Hin as (_ & _ & _ & _ & _ & _ & _ & Hb). lia.
  - rewrite map_app. apply NoDup_app.
    + now apply filter_keys_unique.
    + apply persist_all_keys_unique.
    + intros x Hold Hnew.
      apply in_map_iff in Hold. destruct Hold as (f & Hid & Hin).
      apply filter_In in Hin. destruct Hin as [Hin _]. specialize (Hfpk f Hin).
      apply in_map_iff in Hnew. destruct Hnew as (g & Hid' & Hg).
      apply persist_all_in in Hg.
      destruct Hg as (_ & _ & _ & _ & _ & _ & _ & Hb). lia.
  - lia.
  - intros f Hin. apply in_app_or in Hin. destruct Hin as [Hin|Hin].
    + apply filter_In in Hin. destruct Hin as [Hin _]. now apply Hrefs.
    + apply persist_all_in in Hin.
      destruct Hin as (d & Hd & Ht & Hasset & _).
      apply to_add_shape in Hd. destruct Hd as (a & Ha & Hta & Hd).
      apply check_asset_shape in Hd. destruct Hd as (Hdt & Hda & _).
      exists a. repeat split; [exact Ha|congruence|congruence].
Qed.

Lemma inv_status_set db pk s :
  store_inv db -> store_inv (update_finding_status pk s db).
Proof.
  intros [[Hapk Hau Hfpk Hfu] Has Hfs Hrefs].
  assert (Hback : forall g,
            In g (findings (update_finding_status pk s db)) ->
            exists f, In f (findings db)
                      /\ Finding.id g = Finding.id f
                      /\ Finding.tenant_id g = Finding.tenant_id f
                      /\ Finding.asset_id g = Finding.asset_id f).
  { cbn [update_finding_status set_findings findings]. intros g Hg.
    apply in_map_iff in Hg. destruct Hg as (f & <- & Hin).
    exists f. destruct (Finding.id f =? pk); cbn; auto. }
  constructor; [constructor|..]; auto.
  - intros g Hg. destruct (Hback g Hg) as (f & Hin & -> & _). now apply Hfpk.
  - cbn [update_finding_status set_findings findings]. rewrite map_map.
    erewrite map_ext; [exact Hfu|].
    intros f. cbn. destruct (Finding.id f =? pk); reflexivity.
  - intros g Hg. destruct (Hback g Hg) as (f & Hin & _ & Ht & Ha).
    destruct (Hrefs f Hin) as (a & Hin' & Hid & Hta).
    exists a. cbn [update_finding_status set_findings assets].
    repeat split; [exact Hin'|congruence|congruence].
Qed.

Lemma change_keeps_inv db db' : change db db' -> store_inv db -> store_inv db'.
Proof.
  intros [ | db'' Ea Ef Eas Efs | | | | ]; intros Hinv.
  - exact Hinv.
  - now apply (inv_side_tables db db'').
  - now apply inv_asset_added.
  - now apply inv_asset_deleted.
  - now apply inv_rechecked.
  - now apply inv_status_set.
Qed.

Lemma init_db_inv : store_inv init_db.
Proof.
  constructor; [constructor|..]; cbn; try lia; try constructor; intros ? [].
Qed.

Lemma requests_keep_inv Dict dumps hash (rs : list (Request Dict)) : forall db,
  store_inv db -> store_inv (fold_left (step Dict dumps hash) rs db).
Proof.
  induction rs as [|r rs IH]; intros db Hinv; [exact Hinv|].
  cbn [fold_left]. apply IH. apply (change_keeps_inv db); [apply step_change|exact Hinv].
Qed.

(** Every database the requests can produce has sound primary keys. *)
Lemma reachable_keys_ok Dict dumps hash (rs : list (Request Dict)) :
  keys_ok (after Dict dumps hash rs).
Proof.
  apply inv_keys. unfold after. apply requests_keep_inv. apply init_db_inv.
Qed.

Lemma inv_consistent db : store_inv db -> findings_consistent db.
Proof.
  intros [K _ _ Hrefs] f Hin. split; [now apply Hrefs|].
  intros a Ha Hid. destruct (Hrefs f Hin) as (a0 & Ha0 & Hid0 & Ht0).
  assert (a0 = a)
    by (apply (same_key_same_row Asset.id (assets db)); auto using asset_unique;
        congruence).
  congruence.
Qed.

(** C8. A finding that a run of run_checks adds to the store carries the
    run's tenant id and references a stored asset of that tenant; and after
    any sequence of requests on the fresh schema, every stored finding
    references an existing asset, and the asset with that id belongs to the
    finding's tenant. *)
Theorem findings_reference_own_tenant
    (Dict : Type) (dumps : Dict -> string) (hash : string -> string) :
  (forall db now tenant_id email f,
      In f (findings (store (serve (run_checks now tenant_id email) db))) ->
      ~ In f (findings db) ->
      Finding.tenant_id f = tenant_id
      /\ exists a, In a (assets db)
                   /\ Asset.id a = Finding.asset_id f
                   /\ Asset.tenant_id a = tenant_id)
  /\ (forall rs : list (Request Dict),
        findings_consistent (after Dict dumps hash rs)).
Proof.
  split.
  - intros db now tenant_id email f Hin Hnew.
    destruct (run_checks_store db now tenant_id email) as [E|E];
      rewrite E in Hin; [contradiction|].
    rewrite rerun_findings in Hin. apply in_app_or in Hin.
    destruct Hin as [Hin|Hin].
    + apply filter_In in Hin. tauto.
    + apply persist_all_in in Hin. destruct Hin as (d & Hd & Ht & Hasset & _).
      apply to_add_shape in Hd. destruct Hd as (a & Ha & Hta & Hd).
      apply check_asset_shape in Hd. destruct Hd as (Hdt & Hda & _).
      split; [congruence|]. exists a. repeat split; [exact Ha|congruence|exact Hta].
  - intros rs. apply inv_consistent. unfold after.
    apply requests_keep_inv. apply init_db_inv.
Qed.

(* ------------------------------------------------------------------ *)
(** * Instances on the example installation *)

(** C1 at [scanned_db]: bob, who is no member of tenant 1, is refused. *)
Lemma tenant_isolation_witness :
  keys_ok scanned_db
  /\ user_of scanned_db "bob@other.io" = Some bob
  /\ ~ Member scanned_db (User.id bob) 1
  /\ serve (create_asset string (fun d => d) 50
              (AssetCreate.mk 1 "aws_s3_bucket" "mine" None None) "bob@other.io")
           scanned_db = refused scanned_db
  /\ serve (list_assets 1 "bob@other.io") scanned_db = refused scanned_db
  /\ serve (run_checks (ticking 50) 1 "bob@other.io") scanned_db = refused scanned_db
  /\ serve (list_findings 1 None "bob@other.io") scanned_db = refused scanned_db
  /\ serve (delete_asset 1 "bob@other.io") scanned_db = refused scanned_db
  /\ serve (update_finding 2 (FindingUpdate.mk "ignored") "bob@other.io") scanned_db
     = refused scanned_db.
Proof.
  pose proof (tenant_isolation string (fun d => d) scanned_db "bob@other.io" bob 1
                scanned_db_keys eq_refl (bob_is_no_member_of_acme scanned_db eq_refl))
    as (H1 & H2 & H3 & H4 & H5 & H6).
  split; [exact scanned_db_keys|]. split; [reflexivity|].
  split; [exact (bob_is_no_member_of_acme scanned_db eq_refl)|].
  split; [exact (H1 50 (AssetCreate.mk 1 "aws_s3_bucket" "mine" None None) eq_refl)|].
  split; [exact H2|]. split; [exact (H3 (ticking 50))|]. split; [exact (H4 None)|].
  split.
  - exact (H5 app_data (or_introl eq_refl) eq_refl).
  - exact (H6 medium_finding (FindingUpdate.mk "ignored")
              (or_intror (or_introl eq_refl)) eq_refl).
Defined.

(** C2 at [demo_db], which holds both buckets of the specification. *)
Lemma run_checks_on_spec_buckets_witness :
  keys_ok demo_db
  /\ user_of demo_db "alice@acme.io" = Some alice
  /\ Member demo_db (User.id alice) 1
  /\ exists r,
       response (serve (run_checks (ticking 100) 1 "alice@acme.io") demo_db) = Return r
       /\ map summary (of_asset app_data r)
          = [("low", "S3 bucket not tagged as production", "open");
             ("medium", "Asset has no region set", "open")]
       /\ of_asset app_data_prod r = [].
Proof.
  split; [exact demo_db_keys|]. split; [reflexivity|].
  split; [exact (alice_is_member_of_acme demo_db eq_refl)|].
  destruct (run_checks_on_spec_buckets demo_db (ticking 100) 1 "alice@acme.io" alice
              demo_db_keys eq_refl (alice_is_member_of_acme demo_db eq_refl))
    as (r & Hr & _ & Ha & Hb).
  exists r. split; [exact Hr|]. split.
  - exact (Ha app_data (or_introl eq_refl) eq_refl eq_refl eq_refl eq_refl).
  - exact (Hb app_data_prod (or_intror (or_introl eq_refl))
              eq_refl eq_refl eq_refl eq_refl).
Defined.

(** C3 at [triaged_db]: the resolved finding 1 is still there after a rerun. *)
Lemma run_checks_keeps_triaged_witness :
  In (Finding.set_status "resolved" low_finding) (findings triaged_db)
  /\ In (Finding.set_status "resolved" low_finding)
        (findings (store (serve (run_checks (ticking 200) 1 "alice@acme.io")
                                triaged_db))).
Proof.
  split; [left; reflexivity|].
  destruct (run_checks_keeps_triaged triaged_db (ticking 200) 1 "alice@acme.io")
    as (_ & Hkept & _).
  apply Hkept; [left; reflexivity|left; reflexivity].
Defined.

(** C4 at [demo_db]. *)
Lemma run_checks_twice_same_matches_witness :
  user_of demo_db "alice@acme.io" = Some alice
  /\ Member demo_db (User.id alice) 1
  /\ exists r1 r2,
       response (serve (run_checks (ticking 100) 1 "alice@acme.io") demo_db)
       = Return r1
       /\ response (serve (run_checks (ticking 200) 1 "alice@acme.io")
                          (store (serve (run_checks (ticking 100) 1 "alice@acme.io")
                                        demo_db)))
          = Return r2
       /\ map rule_match r1 = map rule_match r2
       /\ Permutation (map rule_match r1) (map rule_match r2).
Proof.
  split; [reflexivity|].
  split; [exact (alice_is_member_of_acme demo_db eq_refl)|].
  exact (run_checks_twice_same_matches demo_db (ticking 100) (ticking 200) 1
           "alice@acme.io" alice eq_refl (alice_is_member_of_acme demo_db eq_refl)).
Defined.

(** C5 at [triaged_db]: finding 1 is resolved, the bucket still lacks the
    suffix, and the rerun stores a second, open row for it. *)
Lemma rerun_duplicates_triaged_finding_witness :
  In (Finding.set_status "resolved" low_finding) (findings triaged_db)
  /\ exists f',
       In f' (findings (store (serve (run_checks (ticking 200) 1 "alice@acme.io")
                                     triaged_db)))
       /\ f' <> Finding.set_status "resolved" low_finding
       /\ Finding.status f' = "open"
       /\ rule_match f' = rule_match (Finding.set_status "resolved" low_finding).
Proof.
  split; [left; reflexivity|].
  destruct (rerun_duplicates_triaged_finding triaged_db (ticking 200) 1
              "alice@acme.io" alice
              (Finding.set_status "resolved" low_finding) app_data
              (Finding.new 1 1 "low" "S3 bucket not tagged as production"
                 (Some "Bucket 'app-data' does not end with '-prod'.") "open"))
    as (_ & f' & r & _ & _ & Hin & Hne & Hs & _ & _ & Hm).
  - reflexivity.
  - exact (alice_is_member_of_acme triaged_db eq_refl).
  - left; reflexivity.
  - discriminate.
  - left; reflexivity.
  - reflexivity.
  - left; reflexivity.
  - reflexivity.
  - exists f'. auto.
Defined.

(** C7 at [scanned_db]: alice sets finding 1 to a status outside the
    enumeration. *)
Lemma update_finding_takes_any_status_witness :
  user_of scanned_db "alice@acme.io" = Some alice
  /\ finding_by_id scanned_db 1 = Some low_finding
  /\ Member scanned_db (User.id alice) (Finding.tenant_id low_finding)
  /\ exists f',
       response (serve (update_finding 1 (FindingUpdate.mk "wontfix") "alice@acme.io")
                       scanned_db) = Return f'
       /\ finding_by_id
            (store (serve (update_finding 1 (FindingUpdate.mk "wontfix") "alice@acme.io")
                          scanned_db)) 1 = Some f'
       /\ Finding.status f' = "wontfix"
       /\ f' = Finding.set_status "wontfix" low_finding.
Proof.
  split; [reflexivity|]. split; [reflexivity|].
  split; [exact (alice_is_member_of_acme scanned_db eq_refl)|].
  exact (update_finding_takes_any_status scanned_db "alice@acme.io" alice 1
           low_finding "wontfix" eq_refl eq_refl
           (alice_is_member_of_acme scanned_db eq_refl)).
Defined.

(** C8 on the first run over [demo_db] and on the end-to-end scenario. *)
Lemma findings_reference_own_tenant_witness :
  In low_finding
     (findings (store (serve (run_checks (ticking 100) 1 "alice@acme.io") demo_db)))
  /\ ~ In low_finding (findings demo_db)
  /\ Finding.tenant_id low_finding = 1
  /\ (exists a, In a (assets demo_db)
                /\ Asset.id a = Finding.asset_id low_finding
                /\ Asset.tenant_id a = 1)
  /\ findings_consistent (after string (fun d => d) (fun p => p) e2e).
Proof.
  destruct (findings_reference_own_tenant string (fun d => d) (fun p => p))
    as (Hnew & Hall).
  assert (H1 : In low_finding
                 (findings (store (serve (run_checks (ticking 100) 1 "alice@acme.io")
                                         demo_db))))
    by (left; reflexivity).
  assert (H2 : ~ In low_finding (findings demo_db)) by (intros []).
  destruct (Hnew demo_db (ticking 100) 1 "alice@acme.io" low_finding H1 H2)
    as (Ht & Ha).
  split; [exact H1|]. split; [exact H2|]. split; [exact Ht|]. split; [exact Ha|].
  exact (Hall e2e).
Defined.

(** The two commits of C9 at [triaged_db]. *)
Lemma run_checks_commits_twice_witness :
  user_of triaged_db "alice@acme.io" = Some alice
  /\ Member triaged_db (User.id alice) 1
  /\ committed (serve (run_checks (ticking 200) 1 "alice@acme.io") triaged_db)
     = [delete_open_findings 1 triaged_db;
        store (serve (run_checks (ticking 200) 1 "alice@acme.io") triaged_db)]
  /\ filter (is_open_of 1) (findings (delete_open_findings 1 triaged_db)) = [].
Proof.
  split; [reflexivity|].
  split; [exact (alice_is_member_of_acme triaged_db eq_refl)|].
  destruct (run_checks_commits_twice triaged_db (ticking 200) 1 "alice@acme.io" alice
              eq_refl (alice_is_member_of_acme triaged_db eq_refl))
    as (Hc & He & _).
  split; [exact Hc|exact He].
Defined.

(** C9 with a single transaction does not hold: the run over [triaged_db] publishes a state that is
    not its final state, in which tenant 1 has no open finding although it had
    one before the run and has two after it. *)
Lemma run_checks_not_atomic :
  ~ atomic (serve (run_checks (ticking 200) 1 "alice@acme.io") triaged_db)
  /\ exists mid,
       In mid (committed (serve (run_checks (ticking 200) 1 "alice@acme.io")
                                triaged_db))
       /\ filter (is_open_of 1) (findings triaged_db) = [medium_finding]
       /\ filter (is_open_of 1) (findings mid) = []
       /\ List.length
            (filter (is_open_of 1)
               (findings (store (serve (run_checks (ticking 200) 1 "alice@acme.io")
                                       triaged_db)))) = 2%nat.
Proof.
  split.
  - intros H.
    specialize (H (delete_open_findings 1 triaged_db) (or_introl eq_refl)).
    apply (f_equal (fun db => List.length (findings db))) in H.
    vm_compute in H. discriminate H.
  - exists (delete_open_findings 1 triaged_db).
    split; [left; reflexivity|]. repeat split.
Qed.

(** The error precedence of C10 at [scanned_db], with bob as the caller. *)
Lemma lookup_precedes_guard_witness :
  user_of scanned_db "bob@other.io" = Some bob
  /\ status_code_of (serve (delete_asset 0 "bob@other.io") scanned_db) = Some 422
  /\ status_code_of (serve (delete_asset 7 "bob@other.io") scanned_db) = Some 404
  /\ status_code_of (serve (delete_asset 1 "bob@other.io") scanned_db) = Some 403
  /\ status_code_of (serve (update_finding 7 (FindingUpdate.mk "open") "bob@other.io")
                           scanned_db) = Some 404
  /\ status_code_of (serve (update_finding 1 (FindingUpdate.mk "open") "bob@other.io")
                           scanned_db) = Some 403.
Proof.
  destruct (lookup_precedes_guard scanned_db "bob@other.io" bob eq_refl)
    as (H0 & H1 & H2 & H3 & H4).
  split; [reflexivity|].
  split; [rewrite (H0 0); [reflexivity|lia]|].
  split; [rewrite (H1 7); [reflexivity|lia|reflexivity]|].
  split.
  { rewrite (H2 1 app_data); [reflexivity|lia|reflexivity|].
    exact (bob_is_no_member_of_acme scanned_db eq_refl). }
  split; [rewrite (H3 7); [reflexivity|reflexivity]|].
  rewrite (H4 1 (FindingUpdate.mk "open") low_finding); [reflexivity|reflexivity|].
  exact (bob_is_no_member_of_acme scanned_db eq_refl).
Defined.

(** C10 without the path validation does not hold: 0 is the id of no asset, and the
    caller gets a validation error (422), not 404. *)
Lemma delete_asset_zero_is_unprocessable :
  user_of demo_db "bob@other.io" = Some bob
  /\ asset_by_id demo_db 0 = None
  /\ response (serve (delete_asset 0 "bob@other.io") demo_db)
     = Raised (RequestValidationError "asset_id")
  /\ status_code_of (serve (delete_asset 0 "bob@other.io") demo_db) <> Some 404.
Proof.
  repeat split. discriminate.
Qed.

(* ------------------------------------------------------------------ *)
(** * Further properties of the endpoints *)

(** ** Registration and login *)

Lemma find_app {A} (p : A -> bool) (l l' : list A) :
  find p (l ++ l')
  = match find p l with Some y => Some y | None => find p l' end.
Proof.
  induction l as [|y l IH]; [reflexivity|].
  cbn. destruct (p y); [reflexivity|exact IH].
Qed.

Lemma register_fresh hash db now payload :
  user_of db (UserCreate.email payload) = None ->
  serve (register hash now payload) db
  = mkOutcome
      (Return (snd (insert_user now (UserCreate.email payload)
                      (hash (UserCreate.password payload)) db)))
      [fst (insert_user now (UserCreate.email payload)
              (hash (UserCreate.password payload)) db)]
      (fst (insert_user now (UserCreate.email payload)
              (hash (UserCreate.password payload)) db)).
Proof.
  intros Hu. unfold register. as_caller Hu Hu. reflexivity.
Qed.

Lemma register_taken hash db now payload u :
  user_of db (UserCreate.email payload) = Some u ->
  serve (register hash now payload) db
  = mkOutcome (Raised (HTTPException 400 "Email already registered")) [] db.
Proof.
  intros Hu. unfold register. as_caller Hu Hu. reflexivity.
Qed.

Lemma register_then_lookup_aux hash db now payload :
  user_of db (UserCreate.email payload) = None ->
  exists row,
    user_of (store (serve (register hash now payload) db))
            (UserCreate.email payload) = Some row.
Proof.
  intros Hu. rewrite (register_fresh hash db now payload Hu).
  cbn [store insert_user fst]. eexists. unfold user_of in *. cbn [users].
  rewrite find_app, Hu. cbn. rewrite String.eqb_refl. reflexivity.
Qed.

(** X1. Registering an unused e-mail succeeds with one commit: the new row
    takes the next primary key, the given e-mail, the hash of the password
    and the active flag; afterwards the e-mail resolves to that row, and
    every other e-mail resolves as before. *)
Theorem register_then_lookup
    (hash : string -> string) (db : DB) (now : Z) (payload : UserCreate.t) :
  user_of db (UserCreate.email payload) = None ->
  exists row,
    response (serve (register hash now payload) db) = Return row
    /\ committed (serve (register hash now payload) db)
       = [store (serve (register hash now payload) db)]
    /\ row = User.mk (users_seq db) (UserCreate.email payload)
                     (hash (UserCreate.password payload)) true now
    /\ users (store (serve (register hash now payload) db)) = (users db ++ [row])%list
    /\ user_of (store (serve (register hash now payload) db))
               (UserCreate.email payload) = Some row
    /\ (forall email, email <> UserCreate.email payload ->
          user_of (store (serve (register hash now payload) db)) email
          = user_of db email).
Proof.
  intros Hu. rewrite (register_fresh hash db now payload Hu).
  cbn [response committed store insert_user fst snd].
  eexists. split; [reflexivity|]. split; [reflexivity|]. split; [reflexivity|].
  split; [reflexivity|]. unfold user_of in *. cbn [users]. split.
  - rewrite find_app, Hu. cbn. now rewrite String.eqb_refl.
  - intros email Hne. rewrite find_app.
    destruct (find (fun u => String.eqb (User.email u) email) (users db));
      [reflexivity|].
    cbn. destruct (String.eqb_spec (UserCreate.email payload) email);
      [congruence|reflexivity].
Qed.

(** X2. An e-mail can be registered once: whatever the first registration
    did, a second one with the same e-mail -- any password, any time -- is
    answered 400 "Email already registered" and commits nothing. *)
Theorem register_same_email_twice
    (hash : string -> string) (db : DB) (now1 now2 : Z)
    (email password1 password2 : string) :
  serve (register hash now2 (UserCreate.mk email password2))
        (store (serve (register hash now1 (UserCreate.mk email password1)) db))
  = mkOutcome (Raised (HTTPException 400 "Email already registered")) []
      (store (serve (register hash now1 (UserCreate.mk email password1)) db)).
Proof.
  destruct (user_of db email) as [u|] eqn:Hu.
  - rewrite (register_taken hash db now1 (UserCreate.mk email password1) u Hu).
    cbn [store]. now apply register_taken with (u := u).
  - destruct (register_then_lookup_aux hash db now1 (UserCreate.mk email password1) Hu)
      as (row & Hrow).
    now apply register_taken with (u := row).
Qed.

Lemma login_run verify token db form :
  serve (login verify token form) db
  = mkOutcome
      (match user_of db (OAuth2PasswordRequestForm.username form) with
       | None => Raised (HTTPException 401 "Invalid credentials")
       | Some user =>
           if verify (OAuth2PasswordRequestForm.password form)
                     (User.password_hash user)
           then Return (TokenOut.mk (token (User.email user)) "bearer")
           else Raised (HTTPException 401 "Invalid credentials")
       end) [] db.
Proof.
  unfold login, user_of. open_handler.
  destruct (find _ (users db)) as [user|]; [|reflexivity].
  destruct (verify _ _); reflexivity.
Qed.


(** X4. If the password library verifies a password against its own hash of
    it, then after registering an unused e-mail the same credentials log in:
    login returns a bearer token issued for that e-mail. *)
Theorem register_then_login
    (hash : string -> string) (verify : string -> string -> bool)
    (token : string -> string) (db : DB) (now : Z) (email password : string) :
  verify password (hash password) = true ->
  user_of db email = None ->
  response (serve (login verify token (OAuth2PasswordRequestForm.mk email password))
                  (store (serve (register hash now (UserCreate.mk email password)) db)))
  = Return (TokenOut.mk (token email) "bearer").
Proof.
  intros Hv Hu. rewrite login_run. cbn [response OAuth2PasswordRequestForm.username
                                          OAuth2PasswordRequestForm.password].
  rewrite (register_fresh hash db now (UserCreate.mk email password) Hu).
  cbn [store insert_user fst UserCreate.email UserCreate.password].
  unfold user_of in *. cbn [users]. rewrite find_app, Hu. cbn.
  rewrite String.eqb_refl. cbn. now rewrite Hv.
Qed.

Lemma register_then_login_witness :
  demo_verify "pw" (demo_hash "pw") = true
  /\ user_of init_db "a@x.com" = None
  /\ response (serve (login demo_verify demo_token
                        (OAuth2PasswordRequestForm.mk "a@x.com" "pw"))
                     (store (serve (register demo_hash 1 (UserCreate.mk "a@x.com" "pw"))
                                   init_db)))
     = Return (TokenOut.mk (demo_token "a@x.com") "bearer").
Proof.
  split; [reflexivity|]. split; [reflexivity|].
  exact (register_then_login demo_hash demo_verify demo_token init_db 1
           "a@x.com" "pw" eq_refl eq_refl).
Defined.

Lemma register_then_lookup_witness :
  user_of init_db "a@x.com" = None
  /\ exists row,
       response (serve (register demo_hash 1 (UserCreate.mk "a@x.com" "pw")) init_db)
       = Return row
       /\ user_of (store (serve (register demo_hash 1 (UserCreate.mk "a@x.com" "pw"))
                                init_db)) "a@x.com" = Some row.
Proof.
  split; [reflexivity|].
  destruct (register_then_lookup demo_hash init_db 1 (UserCreate.mk "a@x.com" "pw")
              eq_refl) as (row & Hr & _ & _ & _ & Hl & _).
  exists row. split; [exact Hr|exact Hl].
Defined.


(** ** Requests that only read, and callers without a user row *)

(** X5. login, list_my_tenants, list_assets and list_findings never write:
    whatever the caller and the arguments, and whether they succeed or fail,
    they commit nothing and the database stays as it was. *)
Theorem read_endpoints_commit_nothing
    (verify : string -> string -> bool) (token : string -> string) (db : DB) :
  (forall form,
      committed (serve (login verify token form) db) = []
      /\ store (serve (login verify token form) db) = db)
  /\ (forall email,
      committed (serve (list_my_tenants email) db) = []
      /\ store (serve (list_my_tenants email) db) = db)
  /\ (forall tenant_id email,
      committed (serve (list_assets tenant_id email) db) = []
      /\ store (serve (list_assets tenant_id email) db) = db)
  /\ (forall tenant_id status_f email,
      committed (serve (list_findings tenant_id status_f email) db) = []
      /\ store (serve (list_findings tenant_id status_f email) db) = db).
Proof.
  split; [|split; [|split]].
  - intros form. now rewrite login_run.
  - intros email. unfold list_my_tenants. open_handler. split_lookups; auto.
  - intros t email. unfold list_assets. open_handler. split_lookups; auto.
  - intros t s email. unfold list_findings. open_handler. split_lookups; auto.
Qed.

(** X6. A caller whose e-mail matches no user row gets 404 "User not found"
    from every protected endpoint, before the membership guard and before any
    lookup of the resource, and nothing is committed.  (For delete_asset the
    path validation of [asset_id] still comes first.) *)
Theorem unknown_user_is_404
    (Dict : Type) (dumps : Dict -> string) (db : DB) (email : string) :
  user_of db email = None ->
  (forall now payload,
      serve (create_tenant now payload email) db = user_not_found db)
  /\ serve (list_my_tenants email) db = user_not_found db
  /\ (forall now payload,
        serve (create_asset Dict dumps now payload email) db = user_not_found db)
  /\ (forall tenant_id, serve (list_assets tenant_id email) db = user_not_found db)
  /\ (forall asset_id, 0 < asset_id ->
        serve (delete_asset asset_id email) db = user_not_found db)
  /\ (forall tenant_id status_f,
        serve (list_findings tenant_id status_f email) db = user_not_found db)
  /\ (forall now tenant_id,
        serve (run_checks now tenant_id email) db = user_not_found db)
  /\ (forall finding_id payload,
        serve (update_finding finding_id payload email) db = user_not_found db).
Proof.
  intros Hu. unfold user_not_found. repeat split; intros.
  - unfold create_tenant. as_caller Hu Hu. reflexivity.
  - unfold list_my_tenants. as_caller Hu Hu. reflexivity.
  - unfold create_asset. as_caller Hu Hu. reflexivity.
  - unfold list_assets. as_caller Hu Hu. reflexivity.
  - unfold delete_asset. destruct (Z.leb_spec asset_id 0); [lia|].
    as_caller Hu Hu. reflexivity.
  - unfold list_findings. as_caller Hu Hu. reflexivity.
  - now apply run_checks_unknown_user.
  - unfold update_finding. as_caller Hu Hu. reflexivity.
Qed.

Lemma unknown_user_is_404_witness :
  user_of demo_db "nobody@acme.io" = None
  /\ serve (run_checks (ticking 0) 1 "nobody@acme.io") demo_db
     = user_not_found demo_db
  /\ serve (delete_asset 1 "nobody@acme.io") demo_db = user_not_found demo_db.
Proof.
  destruct (unknown_user_is_404 string (fun d => d) demo_db "nobody@acme.io" eq_refl)
    as (_ & _ & _ & _ & Hd & _ & Hr & _).
  split; [reflexivity|]. split; [exact (Hr (ticking 0) 1)|].
  apply Hd. lia.
Defined.

(** ** Tenants *)

Lemma create_tenant_done db now payload email u :
  user_of db email = Some u ->
  tenant_named db (TenantCreate.name payload) = None ->
  serve (create_tenant now payload email) db
  = mkOutcome
      (Return (Tenant.mk (tenants_seq db) (TenantCreate.name payload) now))
      [fst (insert_tenant now (TenantCreate.name payload) db);
       fst (insert_user_tenant (User.id u) (tenants_seq db) "owner"
              (fst (insert_tenant now (TenantCreate.name payload) db)))]
      (fst (insert_user_tenant (User.id u) (tenants_seq db) "owner"
              (fst (insert_tenant now (TenantCreate.name payload) db)))).
Proof.
  intros Hu Ht. unfold create_tenant, tenant_named in *.
  as_caller Hu Ht. reflexivity.
Qed.

Lemma create_tenant_taken db now payload email u t :
  user_of db email = Some u ->
  tenant_named db (TenantCreate.name payload) = Some t ->
  serve (create_tenant now payload email) db
  = mkOutcome (Raised (HTTPException 400 "Tenant name already exists")) [] db.
Proof.
  intros Hu Ht. unfold create_tenant, tenant_named in *.
  as_caller Hu Ht. reflexivity.
Qed.

Lemma member_after_link db user_id tenant_id role uid t :
  Member (fst (insert_user_tenant user_id tenant_id role db)) uid t
  <-> Member db uid t \/ (uid = user_id /\ t = tenant_id).
Proof.
  unfold Member. cbn [fst insert_user_tenant user_tenants]. split.
  - intros (l & Hin & Hu & Ht). apply in_app_or in Hin.
    destruct Hin as [Hin|[<-|[]]].
    + left. now exists l.
    + right. cbn in *. auto.
  - intros [(l & Hin & Hu & Ht)|[-> ->]].
    + exists l. split; [apply in_or_app; now left|auto].
    + eexists. split; [apply in_or_app; right; left; reflexivity|]. cbn. auto.
Qed.

(** X7. Creating a tenant with an unused name returns the tenant with the
    next tenant id, and makes the caller its member and nobody else: the only
    Membership row of the new tenant is the caller's, with role "owner";
    memberships of the other tenants are as before. *)
Theorem create_tenant_owner_only
    (db : DB) (now : Z) (name email : string) (u : User.t) :
  tenant_seq_fresh db ->
  user_of db email = Some u ->
  tenant_named db name = None ->
  exists t,
    response (serve (create_tenant now (TenantCreate.mk name) email) db) = Return t
    /\ t = Tenant.mk (tenants_seq db) name now
    /\ tenant_named (store (serve (create_tenant now (TenantCreate.mk name) email) db))
                    name = Some t
    /\ (forall user_id,
          Member (store (serve (create_tenant now (TenantCreate.mk name) email) db))
                 user_id (Tenant.id t)
          <-> user_id = User.id u)
    /\ (forall l,
          In l (user_tenants
                  (store (serve (create_tenant now (TenantCreate.mk name) email) db))) ->
          UserTenant.tenant_id l = Tenant.id t -> UserTenant.role l = "owner")
    /\ (forall user_id tenant_id, tenant_id <> Tenant.id t ->
          (Member (store (serve (create_tenant now (TenantCreate.mk name) email) db))
                  user_id tenant_id
           <-> Member db user_id tenant_id)).
Proof.
  intros [_ Hlinks] Hu Ht.
  rewrite (create_tenant_done db now (TenantCreate.mk name) email u Hu Ht).
  cbn [response store TenantCreate.name]. eexists. split; [reflexivity|].
  split; [reflexivity|]. cbn [Tenant.id]. split; [|split; [|split]].
  - unfold tenant_named in *. cbn [fst insert_user_tenant insert_tenant tenants].
    rewrite find_app, Ht. cbn. now rewrite String.eqb_refl.
  - intros user_id. rewrite member_after_link. split.
    + intros [(l & Hin & _ & Hl)|[-> _]]; [|reflexivity].
      cbn [fst insert_tenant user_tenants tenants_seq] in Hin, Hl.
      specialize (Hlinks l Hin). cbn [fst insert_tenant tenants_seq] in Hl. lia.
    + intros ->. right. auto.
  - intros l Hin Hl. cbn [fst insert_user_tenant insert_tenant user_tenants] in Hin.
    apply in_app_or in Hin. destruct Hin as [Hin|[<-|[]]]; [|reflexivity].
    specialize (Hlinks l Hin).
    cbn [fst insert_tenant tenants_seq] in Hl. lia.
  - intros user_id tenant_id Hne. rewrite member_after_link.
    cbn [fst insert_tenant tenants_seq]. split.
    + intros [H|[_ ->]]; [exact H|contradiction].
    + intros H. left. exact H.
Qed.

(** X8. A tenant name can be used once: after a first create_tenant by a
    registered user, whatever it answered, any registered user who asks for
    the same name gets 400 "Tenant name already exists" and nothing is
    committed. *)
Theorem create_tenant_same_name_twice
    (db : DB) (now1 now2 : Z) (name email1 email2 : string) (u1 u2 : User.t) :
  user_of db email1 = Some u1 ->
  user_of db email2 = Some u2 ->
  serve (create_tenant now2 (TenantCreate.mk name) email2)
        (store (serve (create_tenant now1 (TenantCreate.mk name) email1) db))
  = mkOutcome (Raised (HTTPException 400 "Tenant name already exists")) []
      (store (serve (create_tenant now1 (TenantCreate.mk name) email1) db)).
Proof.
  intros Hu1 Hu2. destruct (tenant_named db name) as [t|] eqn:Ht.
  - rewrite (create_tenant_taken db now1 (TenantCreate.mk name) email1 u1 t Hu1 Ht).
    cbn [store]. now apply create_tenant_taken with (u := u2) (t := t).
  - rewrite (create_tenant_done db now1 (TenantCreate.mk name) email1 u1 Hu1 Ht).
    cbn [store TenantCreate.name].
    apply create_tenant_taken
      with (u := u2) (t := Tenant.mk (tenants_seq db) name now1).
    + exact Hu2.
    + unfold tenant_named in *.
      cbn [fst insert_user_tenant insert_tenant tenants TenantCreate.name].
      rewrite find_app, Ht. cbn. now rewrite String.eqb_refl.
Qed.

(** X9. create_tenant commits twice: first the tenant row alone, then the
    owner's Membership row.  The state published by the first commit holds
    the new tenant, with its name taken, and no member for it. *)
Theorem create_tenant_commits_twice
    (db : DB) (now : Z) (name email : string) (u : User.t) :
  tenant_seq_fresh db ->
  user_of db email = Some u ->
  tenant_named db name = None ->
  exists mid,
    committed (serve (create_tenant now (TenantCreate.mk name) email) db)
    = [mid; store (serve (create_tenant now (TenantCreate.mk name) email) db)]
    /\ tenant_named mid name = Some (Tenant.mk (tenants_seq db) name now)
    /\ (forall user_id, ~ Member mid user_id (tenants_seq db))
    /\ ~ atomic (serve (create_tenant now (TenantCreate.mk name) email) db).
Proof.
  intros [_ Hlinks] Hu Ht.
  rewrite (create_tenant_done db now (TenantCreate.mk name) email u Hu Ht).
  cbn [committed store TenantCreate.name]. eexists. split; [reflexivity|].
  split; [|split].
  - unfold tenant_named in *. cbn [fst insert_tenant tenants].
    rewrite find_app, Ht. cbn. now rewrite String.eqb_refl.
  - intros user_id (l & Hin & _ & Hl).
    cbn [fst insert_tenant user_tenants] in Hin. specialize (Hlinks l Hin). lia.
  - intros Hat. unfold atomic in Hat. cbn [committed store] in Hat.
    specialize (Hat _ (or_introl eq_refl)).
    apply (f_equal (fun d => List.length (user_tenants d))) in Hat.
    cbn [fst insert_tenant insert_user_tenant user_tenants] in Hat.
    rewrite length_app in Hat. cbn in Hat. lia.
Qed.

Lemma demo_db_tenant_seq_fresh : tenant_seq_fresh demo_db.
Proof.
  split; intros x Hin; enumerate_rows Hin; cbn; lia.
Qed.

Lemma create_tenant_owner_only_witness :
  tenant_seq_fresh demo_db
  /\ user_of demo_db "bob@other.io" = Some bob
  /\ tenant_named demo_db "other" = None
  /\ exists t,
       response (serve (create_tenant 20 (TenantCreate.mk "other") "bob@other.io")
                       demo_db) = Return t
       /\ Member (store (serve (create_tenant 20 (TenantCreate.mk "other") "bob@other.io")
                               demo_db)) (User.id bob) (Tenant.id t)
       /\ ~ Member (store (serve (create_tenant 20 (TenantCreate.mk "other")
                                    "bob@other.io") demo_db))
                   (User.id alice) (Tenant.id t).
Proof.
  split; [exact demo_db_tenant_seq_fresh|]. split; [reflexivity|].
  split; [reflexivity|].
  destruct (create_tenant_owner_only demo_db 20 "other" "bob@other.io" bob
              demo_db_tenant_seq_fresh eq_refl eq_refl)
    as (t & Hr & _ & _ & Hm & _).
  exists t. split; [exact Hr|]. split.
  - apply Hm. reflexivity.
  - intros H. apply Hm in H. discriminate H.
Defined.

Lemma create_tenant_same_name_twice_witness :
  user_of demo_db "alice@acme.io" = Some alice
  /\ user_of demo_db "bob@other.io" = Some bob
  /\ response (serve (create_tenant 21 (TenantCreate.mk "other") "bob@other.io")
                (store (serve (create_tenant 20 (TenantCreate.mk "other") "alice@acme.io")
                              demo_db)))
     = Raised (HTTPException 400 "Tenant name already exists").
Proof.
  split; [reflexivity|]. split; [reflexivity|].
  rewrite (create_tenant_same_name_twice demo_db 20 21 "other"
             "alice@acme.io" "bob@other.io" alice bob eq_refl eq_refl).
  reflexivity.
Defined.

Lemma create_tenant_commits_twice_witness :
  tenant_seq_fresh demo_db
  /\ user_of demo_db "bob@other.io" = Some bob
  /\ tenant_named demo_db "other" = None
  /\ ~ atomic (serve (create_tenant 20 (TenantCreate.mk "other") "bob@other.io") demo_db).
Proof.
  split; [exact demo_db_tenant_seq_fresh|]. split; [reflexivity|].
  split; [reflexivity|].
  destruct (create_tenant_commits_twice demo_db 20 "other" "bob@other.io" bob
              demo_db_tenant_seq_fresh eq_refl eq_refl) as (mid & _ & _ & _ & H).
  exact H.
Defined.

Lemma list_my_tenants_run db email u :
  user_of db email = Some u ->
  serve (list_my_tenants email) db
  = mkOutcome (Return (tenants_of db (User.id u))) [] db.
Proof.
  intros Hu. unfold list_my_tenants. as_caller Hu Hu. reflexivity.
Qed.

Lemma flat_map_same {A B} (f g : A -> list B) (l : list A) :
  (forall x, In x l -> f x = g x) -> flat_map f l = flat_map g l.
Proof.
  induction l as [|x l IH]; intros H; [reflexivity|].
  cbn. rewrite (H x (or_introl eq_refl)). f_equal. apply IH.
  intros y Hy. apply H. now right.
Qed.

Lemma tenants_of_after_create db now name owner_id user_id :
  tenant_seq_fresh db ->
  tenants_of (fst (insert_user_tenant owner_id (tenants_seq db) "owner"
                     (fst (insert_tenant now name db)))) user_id
  = (tenants_of db user_id
     ++ if owner_id =? user_id then [Tenant.mk (tenants_seq db) name now] else [])%list.
Proof.
  intros [Hts Hls]. unfold tenants_of.
  cbn [fst insert_user_tenant insert_tenant tenants user_tenants tenants_seq].
  rewrite flat_map_app. f_equal.
  - apply flat_map_same. intros t Ht. rewrite filter_app. cbn [filter].
    unfold is_link at 2. cbn [UserTenant.user_id UserTenant.tenant_id].
    specialize (Hts t Ht).
    destruct (Z.eqb_spec (tenants_seq db) (Tenant.id t)); [lia|].
    rewrite andb_false_r. now rewrite app_nil_r.
  - cbn [flat_map Tenant.id]. rewrite app_nil_r, filter_app.
    rewrite (filter_drops_all _ (user_tenants db)).
    + cbn [app filter]. unfold is_link.
      cbn [UserTenant.user_id UserTenant.tenant_id].
      rewrite Z.eqb_refl, andb_true_r.
      destruct (owner_id =? user_id); reflexivity.
    + intros l Hl. specialize (Hls l Hl). unfold is_link.
      destruct (Z.eqb_spec (UserTenant.tenant_id l) (tenants_seq db)); [lia|].
      apply andb_false_r.
Qed.

(** X10. After a user created a tenant, list_my_tenants returns for that user
    the tenants listed before followed by the new one, and for a user with
    another id the same tenants as before. *)
Theorem create_tenant_then_listed
    (db : DB) (now : Z) (name email other : string) (u v : User.t) :
  tenant_seq_fresh db ->
  user_of db email = Some u ->
  tenant_named db name = None ->
  user_of db other = Some v ->
  User.id v <> User.id u ->
  response (serve (list_my_tenants email)
                  (store (serve (create_tenant now (TenantCreate.mk name) email) db)))
  = Return (tenants_of db (User.id u) ++ [Tenant.mk (tenants_seq db) name now])%list
  /\ response (serve (list_my_tenants email) db) = Return (tenants_of db (User.id u))
  /\ response (serve (list_my_tenants other)
                     (store (serve (create_tenant now (TenantCreate.mk name) email) db)))
     = response (serve (list_my_tenants other) db).
Proof.
  intros Hfresh Hu Ht Hv Hne.
  rewrite (create_tenant_done db now (TenantCreate.mk name) email u Hu Ht).
  cbn [store TenantCreate.name].
  rewrite (list_my_tenants_run _ email u), (list_my_tenants_run db email u Hu),
    (list_my_tenants_run _ other v), (list_my_tenants_run db other v Hv);
    try assumption.
  cbn [response]. rewrite !tenants_of_after_create by assumption.
  rewrite Z.eqb_refl. destruct (Z.eqb_spec (User.id u) (User.id v)); [congruence|].
  rewrite app_nil_r. auto.
Qed.

Lemma create_tenant_then_listed_witness :
  tenant_seq_fresh demo_db
  /\ user_of demo_db "bob@other.io" = Some bob
  /\ tenant_named demo_db "other" = None
  /\ user_of demo_db "alice@acme.io" = Some alice
  /\ User.id alice <> User.id bob
  /\ response (serve (list_my_tenants "bob@other.io")
                 (store (serve (create_tenant 20 (TenantCreate.mk "other") "bob@other.io")
                               demo_db)))
     = Return [Tenant.mk 2 "other" 20].
Proof.
  split; [exact demo_db_tenant_seq_fresh|]. split; [reflexivity|].
  split; [reflexivity|]. split; [reflexivity|]. split; [discriminate|].
  destruct (create_tenant_then_listed demo_db 20 "other" "bob@other.io"
              "alice@acme.io" bob alice demo_db_tenant_seq_fresh eq_refl eq_refl
              eq_refl) as (H & _).
  - discriminate.
  - exact H.
Defined.

(** ** Assets *)

Lemma create_asset_done Dict dumps db now (payload : AssetCreate.t Dict) email u :
  user_of db email = Some u ->
  Member db (User.id u) (AssetCreate.tenant_id payload) ->
  serve (create_asset Dict dumps now payload email) db
  = mkOutcome
      (Return (Asset.mk (assets_seq db) (AssetCreate.tenant_id payload)
                 (AssetCreate.type payload) (AssetCreate.name payload)
                 (AssetCreate.region payload)
                 (option_map dumps (AssetCreate.config_json payload)) now))
      [fst (insert_asset now (AssetCreate.tenant_id payload)
              (AssetCreate.type payload) (AssetCreate.name payload)
              (AssetCreate.region payload)
              (option_map dumps (AssetCreate.config_json payload)) db)]
      (fst (insert_asset now (AssetCreate.tenant_id payload)
              (AssetCreate.type payload) (AssetCreate.name payload)
              (AssetCreate.region payload)
              (option_map dumps (AssetCreate.config_json payload)) db)).
Proof.
  intros Hu Hm. destruct (guard_passes _ _ _ Hm) as [l Hl].
  unfold create_asset. as_caller Hu Hl. reflexivity.
Qed.

Lemma list_assets_response db tenant_id email :
  response (serve (list_assets tenant_id email) db)
  = match user_of db email with
    | None => Raised (HTTPException 404 "User not found")
    | Some u =>
        match find (is_link (User.id u) tenant_id) (user_tenants db) with
        | None => Raised Forbidden
        | Some _ =>
            Return (filter (fun a => Asset.tenant_id a =? tenant_id) (assets db))
        end
    end.
Proof.
  unfold list_assets, user_of. open_handler.
  destruct (find _ (users db)) as [u|]; [|reflexivity].
  cbn [txn commits]. destruct (find _ (user_tenants db)); reflexivity.
Qed.

(** X11. A member's create_asset stores the payload under the next asset id
    ([config_json] serialised, or absent) with one commit; list_assets for
    that tenant then returns the assets listed before followed by the new
    one, and for every other tenant and caller it answers as before. *)
Theorem create_asset_then_listed
    (Dict : Type) (dumps : Dict -> string) (db : DB) (now : Z)
    (payload : AssetCreate.t Dict) (email : string) (u : User.t) :
  user_of db email = Some u ->
  Member db (User.id u) (AssetCreate.tenant_id payload) ->
  exists a,
    response (serve (create_asset Dict dumps now payload email) db) = Return a
    /\ a = Asset.mk (assets_seq db) (AssetCreate.tenant_id payload)
             (AssetCreate.type payload) (AssetCreate.name payload)
             (AssetCreate.region payload)
             (option_map dumps (AssetCreate.config_json payload)) now
    /\ committed (serve (create_asset Dict dumps now payload email) db)
       = [store (serve (create_asset Dict dumps now payload email) db)]
    /\ response (serve (list_assets (AssetCreate.tenant_id payload) email)
                       (store (serve (create_asset Dict dumps now payload email) db)))
       = Return (filter (fun x => Asset.tenant_id x =? AssetCreate.tenant_id payload)
                        (assets db) ++ [a])%list
    /\ (forall tenant_id caller,
          tenant_id <> AssetCreate.tenant_id payload ->
          response (serve (list_assets tenant_id caller)
                          (store (serve (create_asset Dict dumps now payload email) db)))
          = response (serve (list_assets tenant_id caller) db)).
Proof.
  intros Hu Hm. destruct (guard_passes _ _ _ Hm) as [l Hl].
  rewrite (create_asset_done Dict dumps db now payload email u Hu Hm).
  cbn [response committed store]. eexists. split; [reflexivity|].
  split; [reflexivity|]. split; [reflexivity|]. split.
  - rewrite list_assets_response. unfold user_of in *.
    cbn [fst insert_asset users user_tenants assets]. rewrite Hu, Hl.
    rewrite filter_app. cbn [filter Asset.tenant_id]. now rewrite Z.eqb_refl.
  - intros tenant_id caller Hne. rewrite !list_assets_response. unfold user_of.
    cbn [fst insert_asset users user_tenants assets].
    rewrite filter_app. cbn [filter Asset.tenant_id].
    destruct (Z.eqb_spec (AssetCreate.tenant_id payload) tenant_id); [congruence|].
    now rewrite app_nil_r.
Qed.

Lemma create_asset_then_listed_witness :
  user_of demo_db "alice@acme.io" = Some alice
  /\ Member demo_db (User.id alice) 1
  /\ response (serve (list_assets 1 "alice@acme.io")
                 (store (serve (create_asset string (fun d => d) 30
                                  (AssetCreate.mk 1 "aws_ec2" "web" (Some "eu-west-1")
                                     (Some "{}")) "alice@acme.io") demo_db)))
     = Return [app_data; app_data_prod;
               Asset.mk 3 1 "aws_ec2" "web" (Some "eu-west-1") (Some "{}") 30].
Proof.
  split; [reflexivity|]. split; [exact (alice_is_member_of_acme demo_db eq_refl)|].
  destruct (create_asset_then_listed string (fun d => d) demo_db 30
              (AssetCreate.mk 1 "aws_ec2" "web" (Some "eu-west-1") (Some "{}"))
              "alice@acme.io" alice eq_refl (alice_is_member_of_acme demo_db eq_refl))
    as (a & _ & -> & _ & H & _).
  exact H.
Defined.

(** X12. A member's delete_asset of a stored asset succeeds with one commit.
    Afterwards its id matches no asset and its findings are gone; every other
    asset and every finding of another asset is still stored; users, tenants
    and memberships are untouched; and deleting the same id again is answered
    404 "Asset not found". *)
Theorem delete_asset_removes
    (db : DB) (email : string) (u : User.t) (a : Asset.t) :
  keys_ok db ->
  user_of db email = Some u ->
  In a (assets db) ->
  Member db (User.id u) (Asset.tenant_id a) ->
  response (serve (delete_asset (Asset.id a) email) db) = Return tt
  /\ committed (serve (delete_asset (Asset.id a) email) db)
     = [store (serve (delete_asset (Asset.id a) email) db)]
  /\ asset_by_id (store (serve (delete_asset (Asset.id a) email) db)) (Asset.id a) = None
  /\ (forall b, In b (assets (store (serve (delete_asset (Asset.id a) email) db)))
                <-> In b (assets db) /\ b <> a)
  /\ (forall f, In f (findings (store (serve (delete_asset (Asset.id a) email) db)))
                <-> In f (findings db) /\ Finding.asset_id f <> Asset.id a)
  /\ users (store (serve (delete_asset (Asset.id a) email) db)) = users db
  /\ tenants (store (serve (delete_asset (Asset.id a) email) db)) = tenants db
  /\ user_tenants (store (serve (delete_asset (Asset.id a) email) db)) = user_tenants db
  /\ serve (delete_asset (Asset.id a) email)
           (store (serve (delete_asset (Asset.id a) email) db))
     = mkOutcome (Raised (HTTPException 404 "Asset not found")) []
         (store (serve (delete_asset (Asset.id a) email) db)).
Proof.
  intros K Hu Ha Hm.
  pose proof (asset_pk _ K a Ha) as Hpos.
  pose proof (asset_by_id_unique db a K Ha) as Hfind.
  rewrite (delete_asset_permitted db (Asset.id a) email u a) by (auto; lia).
  cbn [response committed store].
  assert (Hgone : asset_by_id (delete_asset_row a db) (Asset.id a) = None).
  { unfold asset_by_id. cbn [delete_asset_row assets].
    destruct (find _ _) as [b|] eqn:E; [|reflexivity].
    apply find_some in E. destruct E as [Hb Hid]. apply filter_In in Hb.
    destruct Hb as [_ Hb]. now rewrite Hid in Hb. }
  split; [reflexivity|]. split; [reflexivity|]. split; [exact Hgone|].
  split; [|split; [|split; [|split; [|split]]]]; try reflexivity.
  - intros b. cbn [delete_asset_row assets]. rewrite filter_In, negb_true_iff, Z.eqb_neq.
    split; intros [Hb Hne]; (split; [exact Hb|]).
    + intros ->. now apply Hne.
    + intros E. apply Hne.
      apply (same_key_same_row Asset.id (assets db)); auto using asset_unique.
  - intros f. cbn [delete_asset_row findings].
    now rewrite filter_In, negb_true_iff, Z.eqb_neq.
  - apply delete_asset_missing with (u := u); [lia|exact Hu|exact Hgone].
Qed.

Lemma delete_asset_removes_witness :
  keys_ok scanned_db
  /\ user_of scanned_db "alice@acme.io" = Some alice
  /\ In app_data (assets scanned_db)
  /\ Member scanned_db (User.id alice) (Asset.tenant_id app_data)
  /\ response (serve (delete_asset 1 "alice@acme.io") scanned_db) = Return tt
  /\ asset_by_id (store (serve (delete_asset 1 "alice@acme.io") scanned_db)) 1 = None
  /\ ~ In low_finding (findings (store (serve (delete_asset 1 "alice@acme.io") scanned_db))).
Proof.
  split; [exact scanned_db_keys|]. split; [reflexivity|].
  split; [left; reflexivity|].
  split; [exact (alice_is_member_of_acme scanned_db eq_refl)|].
  destruct (delete_asset_removes scanned_db "alice@acme.io" alice app_data
              scanned_db_keys eq_refl (or_introl eq_refl)
              (alice_is_member_of_acme scanned_db eq_refl))
    as (Hr & _ & Hg & _ & Hf & _).
  split; [exact Hr|]. split; [exact Hg|].
  intros Hin. apply Hf in Hin. destruct Hin as [_ Hne]. now apply Hne.
Defined.

Lemma find_none_all {A} (p : A -> bool) (l : list A) :
  (forall x, In x l -> p x = false) -> find p l = None.
Proof.
  induction l as [|x l IH]; intros H; [reflexivity|].
  cbn. rewrite (H x (or_introl eq_refl)). apply IH.
  intros y Hy. apply H. now right.
Qed.

Lemma scanned_db_inv : store_inv scanned_db.
Proof.
  constructor; [exact scanned_db_keys|cbn; lia|cbn; lia|].
  intros f Hin. exists app_data. enumerate_rows Hin; cbn; auto.
Qed.

(** X13. Deleting an asset right after creating it gives back the asset and
    finding tables as they were before the creation; only the asset sequence
    has advanced, so the id is not handed out again. *)
Theorem create_then_delete_asset
    (Dict : Type) (dumps : Dict -> string) (db : DB) (now : Z)
    (payload : AssetCreate.t Dict) (email : string) (u : User.t) :
  store_inv db ->
  user_of db email = Some u ->
  Member db (User.id u) (AssetCreate.tenant_id payload) ->
  response (serve (delete_asset (assets_seq db) email)
                  (store (serve (create_asset Dict dumps now payload email) db)))
  = Return tt
  /\ assets (store (serve (delete_asset (assets_seq db) email)
                      (store (serve (create_asset Dict dumps now payload email) db))))
     = assets db
  /\ findings (store (serve (delete_asset (assets_seq db) email)
                        (store (serve (create_asset Dict dumps now payload email) db))))
     = findings db
  /\ assets_seq (store (serve (delete_asset (assets_seq db) email)
                          (store (serve (create_asset Dict dumps now payload email) db))))
     = assets_seq db + 1.
Proof.
  intros [K Hseq _ Hrefs] Hu Hm.
  rewrite (create_asset_done Dict dumps db now payload email u Hu Hm).
  cbn [store].
  set (a := Asset.mk (assets_seq db) (AssetCreate.tenant_id payload)
              (AssetCreate.type payload) (AssetCreate.name payload)
              (AssetCreate.region payload)
              (option_map dumps (AssetCreate.config_json payload)) now).
  set (db1 := fst (insert_asset _ _ _ _ _ _ db)).
  assert (Hold : forall x, In x (assets db) -> (Asset.id x =? assets_seq db) = false).
  { intros x Hx. apply Z.eqb_neq. pose proof (asset_pk _ K x Hx). lia. }
  rewrite (delete_asset_permitted db1 (assets_seq db) email u a).
  - cbn [response store delete_asset_row assets findings assets_seq db1
           insert_asset fst]. split; [reflexivity|]. split; [|split; [|reflexivity]].
    + rewrite filter_app. cbn [filter]. fold a. cbn [Asset.id a].
      rewrite Z.eqb_refl. cbn [negb]. rewrite app_nil_r.
      apply filter_keeps_all. intros x Hx. cbn [Asset.id a]. now rewrite Hold.
    + apply filter_keeps_all. intros f Hf.
      destruct (Hrefs f Hf) as (x & Hx & Hid & _). cbn [Asset.id a].
      rewrite <- Hid. now rewrite Hold.
  - exact Hseq.
  - exact Hu.
  - unfold asset_by_id, db1. cbn [fst insert_asset assets].
    rewrite find_app, (find_none_all _ (assets db) Hold). cbn. fold a.
    now rewrite Z.eqb_refl.
  - exact Hm.
Qed.

Lemma create_then_delete_asset_witness :
  store_inv scanned_db
  /\ user_of scanned_db "alice@acme.io" = Some alice
  /\ Member scanned_db (User.id alice) 1
  /\ assets (store (serve (delete_asset 3 "alice@acme.io")
                      (store (serve (create_asset string (fun d => d) 30
                                       (AssetCreate.mk 1 "aws_ec2" "web" None None)
                                       "alice@acme.io") scanned_db))))
     = assets scanned_db.
Proof.
  split; [exact scanned_db_inv|]. split; [reflexivity|].
  split; [exact (alice_is_member_of_acme scanned_db eq_refl)|].
  destruct (create_then_delete_asset string (fun d => d) scanned_db 30
              (AssetCreate.mk 1 "aws_ec2" "web" None None) "alice@acme.io" alice
              scanned_db_inv eq_refl (alice_is_member_of_acme scanned_db eq_refl))
    as (_ & H & _).
  exact H.
Defined.

(** ** Listing findings *)

Lemma insert_desc_perm f l : Permutation (insert_desc f l) (f :: l).
Proof.
  induction l as [|g l IH]; cbn; [apply Permutation_refl|].
  destruct (Finding.created_at g <=? Finding.created_at f);
    [apply Permutation_refl|].
  apply perm_trans with (g :: f :: l); [now apply perm_skip|apply perm_swap].
Qed.

Lemma order_by_perm l : Permutation (order_by_created_at_desc l) l.
Proof.
  induction l as [|f l IH]; cbn; [constructor|].
  apply perm_trans with (f :: order_by_created_at_desc l);
    [apply insert_desc_perm|now apply perm_skip].
Qed.

Lemma insert_desc_sorted f l : newest_first l -> newest_first (insert_desc f l).
Proof.
  induction l as [|g l IH]; intros Hs; cbn [insert_desc].
  - cbn. split; [intros ? []|exact I].
  - destruct Hs as [Hg Hl].
    destruct (Z.leb_spec (Finding.created_at g) (Finding.created_at f)) as [Hle|Hgt].
    + cbn [newest_first]. split; [|split; assumption].
      intros h [<-|Hh]; [exact Hle|]. specialize (Hg h Hh). lia.
    + cbn [newest_first]. split; [|now apply IH].
      intros h Hh. apply (Permutation_in _ (insert_desc_perm f l)) in Hh.
      destruct Hh as [<-|Hh]; [lia|now apply Hg].
Qed.

Lemma order_by_sorted l : newest_first (order_by_created_at_desc l).
Proof.
  induction l as [|f l IH]; cbn; [exact I|now apply insert_desc_sorted].
Qed.

Lemma list_findings_run db tenant_id status_f email u :
  user_of db email = Some u -> Member db (User.id u) tenant_id ->
  serve (list_findings tenant_id status_f email) db
  = mkOutcome
      (Return (order_by_created_at_desc
                 (filter (selected tenant_id status_f) (findings db)))) [] db.
Proof.
  intros Hu Hm. destruct (guard_passes _ _ _ Hm) as [l Hl].
  unfold list_findings. as_caller Hu Hl.
  do 3 f_equal. unfold selected.
  destruct status_f as [s|].
  - destruct (truthy (Some s)).
    + induction (findings db) as [|f fs IH]; [reflexivity|].
      cbn [filter]. destruct (Finding.tenant_id f =? tenant_id); cbn [andb filter].
      * destruct (String.eqb (Finding.status f) s); [now rewrite IH|exact IH].
      * exact IH.
    + apply filter_ext. intros f. now rewrite andb_true_r.
  - apply filter_ext. intros f. now rewrite andb_true_r.
Qed.

(** X14. For a member, list_findings returns exactly the tenant's findings --
    those with the given status when a non-empty status is given, all of them
    otherwise -- each as often as it is stored, ordered newest first. *)
Theorem list_findings_newest_first
    (db : DB) (tenant_id : Z) (status_f : option string) (email : string)
    (u : User.t) :
  user_of db email = Some u ->
  Member db (User.id u) tenant_id ->
  exists r,
    response (serve (list_findings tenant_id status_f email) db) = Return r
    /\ newest_first r
    /\ Permutation r (filter (selected tenant_id status_f) (findings db))
    /\ (forall f, In f r <->
          In f (findings db) /\ Finding.tenant_id f = tenant_id
          /\ match status_f with
             | None | Some "" => True
             | Some s => Finding.status f = s
             end).
Proof.
  intros Hu Hm. rewrite (list_findings_run db tenant_id status_f email u Hu Hm).
  cbn [response]. eexists. split; [reflexivity|].
  split; [apply order_by_sorted|]. split; [apply order_by_perm|].
  intros f. split.
  - intros Hin. apply (Permutation_in _ (order_by_perm _)) in Hin.
    apply filter_In in Hin. destruct Hin as [Hin Hsel]. unfold selected in Hsel.
    apply andb_true_iff in Hsel. destruct Hsel as [Ht Hs]. apply Z.eqb_eq in Ht.
    split; [exact Hin|]. split; [exact Ht|].
    destruct status_f as [[|c s]|]; auto. cbn in Hs. now apply String.eqb_eq in Hs.
  - intros (Hin & Ht & Hs).
    apply (Permutation_in _ (Permutation_sym (order_by_perm _))).
    apply filter_In. split; [exact Hin|]. unfold selected.
    apply andb_true_iff. split; [now apply Z.eqb_eq|].
    destruct status_f as [[|c s]|]; auto. cbn. now apply String.eqb_eq.
Qed.

Lemma list_findings_newest_first_witness :
  user_of triaged_db "alice@acme.io" = Some alice
  /\ Member triaged_db (User.id alice) 1
  /\ exists r,
       response (serve (list_findings 1 None "alice@acme.io") triaged_db) = Return r
       /\ newest_first r
       /\ Permutation r (filter (selected 1 None) (findings triaged_db)).
Proof.
  split; [reflexivity|]. split; [exact (alice_is_member_of_acme triaged_db eq_refl)|].
  destruct (list_findings_newest_first triaged_db 1 None "alice@acme.io" alice eq_refl
              (alice_is_member_of_acme triaged_db eq_refl))
    as (r & Hr & Hs & Hp & _).
  exists r. auto.
Defined.

(** ** More on run_checks *)

(** X15. After a member's run_checks, list_findings with status "open"
    returns the same findings as the run returned, as a permutation of them
    ordered newest first. *)
Theorem run_checks_then_list_open
    (db : DB) (now : nat -> Z) (tenant_id : Z) (email : string) (u : User.t) :
  user_of db email = Some u ->
  Member db (User.id u) tenant_id ->
  exists r l,
    response (serve (run_checks now tenant_id email) db) = Return r
    /\ response (serve (list_findings tenant_id (Some "open") email)
                       (store (serve (run_checks now tenant_id email) db)))
       = Return l
    /\ Permutation l r
    /\ newest_first l.
Proof.
  intros Hu Hm. rewrite (run_checks_permitted db now tenant_id email u Hu Hm).
  cbn [response store].
  rewrite (list_findings_run (rerun now tenant_id db) tenant_id (Some "open") email u).
  - cbn [response]. do 2 eexists. split; [reflexivity|]. split; [reflexivity|].
    split; [|apply order_by_sorted].
    rewrite (filter_ext (selected tenant_id (Some "open")) (is_open_of tenant_id))
      by reflexivity.
    apply order_by_perm.
  - now rewrite rerun_same_caller.
  - now apply rerun_same_members.
Qed.

Lemma run_checks_then_list_open_witness :
  user_of demo_db "alice@acme.io" = Some alice
  /\ Member demo_db (User.id alice) 1
  /\ exists r l,
       response (serve (run_checks (ticking 100) 1 "alice@acme.io") demo_db) = Return r
       /\ response (serve (list_findings 1 (Some "open") "alice@acme.io")
                      (store (serve (run_checks (ticking 100) 1 "alice@acme.io") demo_db)))
          = Return l
       /\ Permutation l r
       /\ newest_first l.
Proof.
  split; [reflexivity|]. split; [exact (alice_is_member_of_acme demo_db eq_refl)|].
  exact (run_checks_then_list_open demo_db (ticking 100) 1 "alice@acme.io" alice
           eq_refl (alice_is_member_of_acme demo_db eq_refl)).
Defined.

(** X16. run_checks writes to the findings table only: whoever calls it, for
    whatever tenant, the users, tenants, memberships and assets are after the
    request what they were before, no asset id is consumed, and the finding
    sequence never moves backwards. *)
Theorem run_checks_touches_findings_only
    (db : DB) (now : nat -> Z) (tenant_id : Z) (email : string) :
  users (store (serve (run_checks now tenant_id email) db)) = users db
  /\ tenants (store (serve (run_checks now tenant_id email) db)) = tenants db
  /\ user_tenants (store (serve (run_checks now tenant_id email) db)) = user_tenants db
  /\ assets (store (serve (run_checks now tenant_id email) db)) = assets db
  /\ assets_seq (store (serve (run_checks now tenant_id email) db)) = assets_seq db
  /\ findings_seq db <= findings_seq (store (serve (run_checks now tenant_id email) db)).
Proof.
  destruct (run_checks_store db now tenant_id email) as [-> | ->].
  - repeat split; lia.
  - destruct (rerun_frame now tenant_id db) as (-> & -> & -> & -> & -> & ->).
    repeat split; lia.
Qed.






(** X18. Primary keys of findings are not reused across runs: in two
    successive runs by a member, every finding returned by the first run has
    an id from the finding sequence as it stood before that run or later, and
    a smaller id than every finding returned by the second run. *)
Theorem run_checks_twice_fresh_ids
    (db : DB) (now1 now2 : nat -> Z) (tenant_id : Z) (email : string) (u : User.t) :
  user_of db email = Some u ->
  Member db (User.id u) tenant_id ->
  exists r1 r2,
    response (serve (run_checks now1 tenant_id email) db) = Return r1
    /\ response (serve (run_checks now2 tenant_id email)
                       (store (serve (run_checks now1 tenant_id email) db)))
       = Return r2
    /\ (forall f1, In f1 r1 -> findings_seq db <= Finding.id f1)
    /\ (forall f1 f2, In f1 r1 -> In f2 r2 -> Finding.id f1 < Finding.id f2).
Proof.
  intros Hu Hm.
  rewrite (run_checks_permitted db now1 tenant_id email u Hu Hm).
  cbn [response store].
  rewrite (run_checks_permitted (rerun now1 tenant_id db) now2 tenant_id email u);
    [|now rewrite rerun_same_caller|now apply rerun_same_members].
  cbn [response]. do 2 eexists. split; [reflexivity|]. split; [reflexivity|].
  rewrite !rerun_open_findings.
  destruct (rerun_frame now1 tenant_id db) as (_ & _ & _ & _ & _ & ->).
  split.
  - intros f1 H1. apply persist_all_in in H1.
    destruct H1 as (_ & _ & _ & _ & _ & _ & _ & Hb). lia.
  - intros f1 f2 H1 H2. apply persist_all_in in H1. apply persist_all_in in H2.
    destruct H1 as (_ & _ & _ & _ & _ & _ & _ & Hb1).
    destruct H2 as (_ & _ & _ & _ & _ & _ & _ & Hb2). lia.
Qed.

Lemma run_checks_twice_fresh_ids_witness :
  user_of demo_db "alice@acme.io" = Some alice
  /\ Member demo_db (User.id alice) 1
  /\ exists r1 r2,
       response (serve (run_checks (ticking 100) 1 "alice@acme.io") demo_db) = Return r1
       /\ response (serve (run_checks (ticking 200) 1 "alice@acme.io")
                      (store (serve (run_checks (ticking 100) 1 "alice@acme.io")
                                    demo_db))) = Return r2
       /\ (forall f1 f2, In f1 r1 -> In f2 r2 -> Finding.id f1 < Finding.id f2).
Proof.
  split; [reflexivity|]. split; [exact (alice_is_member_of_acme demo_db eq_refl)|].
  destruct (run_checks_twice_fresh_ids demo_db (ticking 100) (ticking 200) 1
              "alice@acme.io" alice eq_refl (alice_is_member_of_acme demo_db eq_refl))
    as (r1 & r2 & H1 & H2 & _ & H).
  exists r1, r2. auto.
Defined.

(** ** The rules, asset by asset *)

Lemma length_append (p s : string) :
  String.length (String.append p s) = (String.length p + String.length s)%nat.
Proof.
  induction p as [|c p IH]; cbn; [reflexivity|now rewrite IH].
Qed.

Lemma substring_whole (s : string) : substring 0 (String.length s) s = s.
Proof.
  induction s as [|c s IH]; cbn; [reflexivity|now rewrite IH].
Qed.

Lemma substring_skip_prefix (p s : string) (m : nat) :
  substring (String.length p) m (String.append p s) = substring 0 m s.
Proof.
  induction p as [|c p IH]; cbn; [reflexivity|exact IH].
Qed.

Lemma substring_split (s : string) : forall k,
  (k <= String.length s)%nat ->
  s = String.append (substring 0 k s) (substring k (String.length s - k) s).
Proof.
  induction s as [|c s IH]; intros k Hk.
  - cbn in Hk. assert (k = 0%nat) by lia. subst. reflexivity.
  - destruct k as [|k].
    + rewrite Nat.sub_0_r, substring_whole. reflexivity.
    + cbn in Hk. cbn [substring String.append String.length Nat.sub].
      f_equal. apply IH. lia.
Qed.

(** [endswith] is Python's [str.endswith]: the string is some prefix followed
    by the suffix. *)
Lemma endswith_spec (s suffix : string) :
  endswith s suffix = true <-> exists p, s = String.append p suffix.
Proof.
  unfold endswith. split.
  - destruct (Nat.leb_spec (String.length suffix) (String.length s)) as [Hle|];
      [|discriminate].
    intros H. apply String.eqb_eq in H.
    exists (substring 0 (String.length s - String.length suffix) s).
    pose proof (substring_split s (String.length s - String.length suffix)) as Hs.
    replace (String.length s - (String.length s - String.length suffix))%nat
      with (String.length suffix) in Hs by lia.
    rewrite H in Hs. apply Hs. lia.
  - intros (p & ->). rewrite length_append.
    destruct (Nat.leb_spec (String.length suffix)
                (String.length p + String.length suffix)) as [_|]; [|lia].
    replace (String.length p + String.length suffix - String.length suffix)%nat
      with (String.length p) by lia.
    rewrite substring_skip_prefix, substring_whole. apply String.eqb_refl.
Qed.

Lemma truthy_false (o : option string) :
  truthy o = false <-> o = None \/ o = Some "".
Proof.
  destruct o as [[|c s]|]; cbn; split; auto; try discriminate;
    intros [H|H]; discriminate H.
Qed.

(** X19. For a member's run and an asset of the tenant, the findings the run
    returns for that asset are exactly the matches of the two rules: the
    low-severity finding "S3 bucket not tagged as production" is among them
    if and only if the asset's type is "aws_s3_bucket" and its name is not
    some string followed by "-prod"; the medium-severity finding "Asset has
    no region set" if and only if its region is absent or the empty string;
    and there is nothing else. *)
Theorem run_checks_rules_per_asset
    (db : DB) (now : nat -> Z) (tenant_id : Z) (email : string) (u : User.t)
    (a : Asset.t) :
  keys_ok db ->
  user_of db email = Some u ->
  Member db (User.id u) tenant_id ->
  In a (assets db) ->
  Asset.tenant_id a = tenant_id ->
  exists r,
    response (serve (run_checks now tenant_id email) db) = Return r
    /\ (In ("low", "S3 bucket not tagged as production", "open")
           (map summary (of_asset a r))
        <-> Asset.type a = "aws_s3_bucket"
            /\ ~ (exists p, Asset.name a = String.append p "-prod"))
    /\ (In ("medium", "Asset has no region set", "open")
           (map summary (of_asset a r))
        <-> Asset.region a = None \/ Asset.region a = Some "")
    /\ (forall x, In x (map summary (of_asset a r)) ->
          x = ("low", "S3 bucket not tagged as production", "open")
          \/ x = ("medium", "Asset has no region set", "open")).
Proof.
  intros K Hu Hm Ha Ht.
  rewrite (run_checks_permitted db now tenant_id email u Hu Hm).
  cbn [response]. eexists. split; [reflexivity|].
  rewrite (rerun_of_asset now tenant_id db a K Ha Ht).
  rewrite <- truthy_false.
  assert (Hsuffix : ~ (exists p, Asset.name a = String.append p "-prod")
                    <-> endswith (Asset.name a) "-prod" = false)
    by (rewrite <- endswith_spec; apply not_true_iff_false).
  rewrite Hsuffix. clear Hsuffix. unfold check_asset.
  destruct (String.eqb_spec (Asset.type a) "aws_s3_bucket") as [Et|Et];
    destruct (endswith (Asset.name a) "-prod");
    destruct (truthy (Asset.region a));
    cbn [andb negb app map In]; unfold transient_summary;
    cbn [Finding.new_severity Finding.new_title Finding.new_status];
    repeat split; intros;
    intuition (subst; try discriminate; try congruence; auto).
Qed.

Lemma run_checks_rules_per_asset_witness :
  keys_ok demo_db
  /\ user_of demo_db "alice@acme.io" = Some alice
  /\ Member demo_db (User.id alice) 1
  /\ In app_data_prod (assets demo_db)
  /\ exists r,
       response (serve (run_checks (ticking 100) 1 "alice@acme.io") demo_db) = Return r
       /\ ~ In ("low", "S3 bucket not tagged as production", "open")
               (map summary (of_asset app_data_prod r)).
Proof.
  split; [exact demo_db_keys|]. split; [reflexivity|].
  split; [exact (alice_is_member_of_acme demo_db eq_refl)|].
  split; [right; left; reflexivity|].
  destruct (run_checks_rules_per_asset demo_db (ticking 100) 1 "alice@acme.io" alice
              app_data_prod demo_db_keys eq_refl
              (alice_is_member_of_acme demo_db eq_refl)
              (or_intror (or_introl eq_refl)) eq_refl)
    as (r & Hr & Hlow & _).
  exists r. split; [exact Hr|].
  intros Hin. apply Hlow in Hin. destruct Hin as [_ Hno].
  apply Hno. exists "app-data". reflexivity.
Defined.

(** ** Triage *)

Lemma set_status_twice s (g : Finding.t) :
  Finding.set_status s (Finding.set_status s g) = Finding.set_status s g.
Proof. reflexivity. Qed.




(** X21. Reopening removes the row at the next run: if a member sets a
    finding's status to "open" and then runs the checks for the finding's
    tenant, the finding's id matches no stored finding afterwards (whatever
    its status was before, and whether or not a rule still matches). *)
Theorem reopened_finding_is_cleared
    (db : DB) (now : nat -> Z) (email : string) (u : User.t) (finding_id : Z)
    (f : Finding.t) :
  keys_ok db ->
  user_of db email = Some u ->
  finding_by_id db finding_id = Some f ->
  Member db (User.id u) (Finding.tenant_id f) ->
  finding_by_id
    (store (serve (run_checks now (Finding.tenant_id f) email)
              (store (serve (update_finding finding_id (FindingUpdate.mk "open") email)
                            db))))
    finding_id = None.
Proof.
  intros K Hu Hf Hm.
  rewrite (update_finding_permitted db finding_id (FindingUpdate.mk "open") email u f
             Hu Hf Hm).
  cbn [store FindingUpdate.status].
  rewrite (run_checks_permitted (update_finding_status finding_id "open" db) now
             (Finding.tenant_id f) email u); [|exact Hu|exact Hm].
  cbn [store]. unfold finding_by_id in *. rewrite rerun_findings.
  pose proof (find_some _ _ Hf) as [Hin Hid]. apply Z.eqb_eq in Hid.
  apply find_none_all. intros g Hg. apply Z.eqb_neq. intros Eg.
  apply in_app_or in Hg. destruct Hg as [Hg|Hg].
  - apply filter_In in Hg. destruct Hg as [Hg Hkept].
    cbn [update_finding_status set_findings findings] in Hg.
    apply in_map_iff in Hg. destruct Hg as (g0 & Hg0 & Hin0).
    destruct (Z.eqb_spec (Finding.id g0) finding_id) as [E0|E0].
    + assert (g0 = f)
        by (apply (same_key_same_row Finding.id (findings db));
            auto using finding_unique; congruence).
      subst g0 g. unfold is_open_of in Hkept. cbn in Hkept.
      rewrite Z.eqb_refl in Hkept. discriminate Hkept.
    + subst g0. contradiction.
  - apply persist_all_in in Hg. destruct Hg as (_ & _ & _ & _ & _ & _ & _ & Hb).
    cbn [update_finding_status set_findings findings_seq] in Hb.
    pose proof (finding_pk _ K f Hin). lia.
Qed.

Lemma reopened_finding_is_cleared_witness :
  keys_ok triaged_db
  /\ user_of triaged_db "alice@acme.io" = Some alice
  /\ finding_by_id triaged_db 1 = Some (Finding.set_status "resolved" low_finding)
  /\ Member triaged_db (User.id alice) 1
  /\ finding_by_id
       (store (serve (run_checks (ticking 200) 1 "alice@acme.io")
                 (store (serve (update_finding 1 (FindingUpdate.mk "open")
                                  "alice@acme.io") triaged_db))))
       1 = None.
Proof.
  split; [exact triaged_db_keys|]. split; [reflexivity|]. split; [reflexivity|].
  split; [exact (alice_is_member_of_acme triaged_db eq_refl)|].
  exact (reopened_finding_is_cleared triaged_db (ticking 200) "alice@acme.io" alice 1
           (Finding.set_status "resolved" low_finding) triaged_db_keys eq_refl eq_refl
           (alice_is_member_of_acme triaged_db eq_refl)).
Defined.

(** ** What every sequence of requests maintains *)

Lemma link_found db user_id tenant_id l :
  find (is_link user_id tenant_id) (user_tenants db) = Some l ->
  Member db user_id tenant_id.
Proof.
  intros H. apply find_some in H. destruct H as [Hin Hl].
  apply is_link_true in Hl. now exists l.
Qed.

Lemma step_evolves Dict dumps hash db (r : Request Dict) :
  evolves db (step Dict dumps hash db r).
Proof.
  destruct r; cbn [step].
  - destruct (user_of db (UserCreate.email payload)) as [u|] eqn:Hu.
    + rewrite (register_taken hash db now payload u Hu). apply ev_none.
    + rewrite (register_fresh hash db now payload Hu). now apply ev_register.
  - destruct (user_of db current_user) as [u|] eqn:Hu.
    + destruct (tenant_named db (TenantCreate.name payload)) as [t|] eqn:Ht.
      * rewrite (create_tenant_taken db now payload current_user u t Hu Ht).
        apply ev_none.
      * rewrite (create_tenant_done db now payload current_user u Hu Ht).
        cbn [store]. apply ev_create_tenant; [|exact Ht].
        unfold user_of in Hu. now apply find_some in Hu.
    + unfold create_tenant. as_caller Hu Hu. apply ev_none.
  - unfold list_my_tenants. open_handler. split_lookups; apply ev_none.
  - destruct (user_of db current_user) as [u|] eqn:Hu.
    + destruct (find (is_link (User.id u) (AssetCreate.tenant_id payload))
                  (user_tenants db)) as [l|] eqn:Hl.
      * rewrite (create_asset_done Dict dumps db now payload current_user u Hu
                   (link_found _ _ _ _ Hl)).
        cbn [store]. apply ev_create_asset with (user_id := User.id u).
        exact (link_found _ _ _ _ Hl).
      * unfold create_asset. as_caller Hu Hl. apply ev_none.
    + unfold create_asset. as_caller Hu Hu. apply ev_none.
  - unfold list_assets. open_handler. split_lookups; apply ev_none.
  - destruct (Z.leb_spec asset_id 0) as [Hneg|Hpos].
    + rewrite (delete_asset_invalid db asset_id current_user Hneg). apply ev_none.
    + destruct (user_of db current_user) as [u|] eqn:Hu.
      * destruct (asset_by_id db asset_id) as [a|] eqn:Ha.
        -- destruct (find (is_link (User.id u) (Asset.tenant_id a))
                       (user_tenants db)) as [l|] eqn:Hl.
           ++ rewrite (delete_asset_permitted db asset_id current_user u a Hpos Hu Ha
                         (link_found _ _ _ _ Hl)).
              cbn [store]. apply ev_delete_asset.
              unfold asset_by_id in Ha. now apply find_some in Ha.
           ++ unfold delete_asset, asset_by_id in *.
              destruct (Z.leb_spec asset_id 0); [lia|].
              as_caller Hu Ha. rewrite Hl. apply ev_none.
        -- rewrite (delete_asset_missing db asset_id current_user u Hpos Hu Ha).
           apply ev_none.
      * unfold delete_asset. destruct (Z.leb_spec asset_id 0); [lia|].
        as_caller Hu Hu. apply ev_none.
  - unfold list_findings. open_handler. split_lookups; apply ev_none.
  - destruct (run_checks_store db now tenant_id current_user) as [-> | ->];
      [apply ev_none|apply ev_run_checks].
  - unfold update_finding. open_handler. split_lookups; try apply ev_none.
    all: apply ev_update_finding.
Qed.

Lemma schema_same db db' :
  users db' = users db -> tenants db' = tenants db ->
  user_tenants db' = user_tenants db -> assets db' = assets db ->
  users_seq db' = users_seq db -> tenants_seq db' = tenants_seq db ->
  schema_inv db -> schema_inv db'.
Proof.
  intros Eu Et El Ea Eus Ets [H1 H2 H3 H4 H5 H6 H7 H8 H9 H10 H11].
  constructor; rewrite ?Eu, ?Et, ?El, ?Ea, ?Eus, ?Ets; auto.
Qed.

Lemma flush_seqs now l : forall k db,
  users_seq (flush now k l db) = users_seq db
  /\ tenants_seq (flush now k l db) = tenants_seq db.
Proof.
  induction l as [|f l IH]; intros k db; cbn [flush]; [auto|].
  destruct (IH (S k) (fst (insert_finding (now k) f db))) as (-> & ->). auto.
Qed.

Lemma not_found_not_in {A} (key : A -> string) (l : list A) (s : string) :
  find (fun x => String.eqb (key x) s) l = None -> ~ In s (map key l).
Proof.
  intros Hf Hin. apply in_map_iff in Hin. destruct Hin as (x & Hk & Hx).
  pose proof (find_none _ _ Hf x Hx) as E. cbn in E.
  rewrite Hk, String.eqb_refl in E. discriminate E.
Qed.

Lemma unique_after_append {A B} (key : A -> B) (l : list A) (x : A) :
  NoDup (map key l) -> ~ In (key x) (map key l) -> NoDup (map key (l ++ [x])).
Proof.
  intros Hnd Hnew. rewrite map_app. apply NoDup_app; [exact Hnd| |].
  - cbn. constructor; [tauto|constructor].
  - intros y Hy [<-|[]]. contradiction.
Qed.

Lemma schema_register db now email password_hash :
  user_of db email = None -> schema_inv db ->
  schema_inv (fst (insert_user now email password_hash db)).
Proof.
  intros Hu [H1 H2 H3 H4 H5 H6 H7 H8 H9 H10 H11].
  constructor; cbn [fst insert_user users tenants user_tenants assets users_seq
                      tenants_seq]; auto; try lia.
  - intros x Hx. apply in_app_or in Hx. destruct Hx as [Hx|[<-|[]]].
    + specialize (H1 x Hx). lia.
    + cbn. lia.
  - apply unique_after_append; [exact H3|]. cbn [User.id]. intros Hin.
    apply in_map_iff in Hin. destruct Hin as (x & Hid & Hx).
    specialize (H1 x Hx). lia.
  - apply unique_after_append; [exact H4|]. cbn [User.email].
    now apply not_found_not_in.
  - intros l Hl. destruct (H10 l Hl) as (Hr & x & Hx & Hid).
    split; [exact Hr|]. exists x. split; [apply in_or_app; now left|exact Hid].
Qed.

Lemma schema_create_tenant db now name u :
  In u (users db) -> tenant_named db name = None -> schema_inv db ->
  schema_inv (fst (insert_user_tenant (User.id u) (tenants_seq db) "owner"
                     (fst (insert_tenant now name db)))).
Proof.
  intros Hu Ht [H1 H2 H3 H4 H5 H6 H7 H8 H9 H10 H11].
  constructor; cbn [fst insert_user_tenant insert_tenant users tenants user_tenants
                      assets users_seq tenants_seq]; auto; try lia.
  - intros x Hx. apply in_app_or in Hx. destruct Hx as [Hx|[<-|[]]].
    + specialize (H5 x Hx). lia.
    + cbn. lia.
  - apply unique_after_append; [exact H7|]. cbn [Tenant.id]. intros Hin.
    apply in_map_iff in Hin. destruct Hin as (x & Hid & Hx).
    specialize (H5 x Hx). lia.
  - apply unique_after_append; [exact H8|]. cbn [Tenant.name].
    now apply not_found_not_in.
  - rewrite !map_app, H9. reflexivity.
  - intros l Hl. apply in_app_or in Hl. destruct Hl as [Hl|[<-|[]]].
    + now apply H10.
    + cbn. split; [reflexivity|]. now exists u.
  - intros a Ha. destruct (H11 a Ha) as (t & Hin & Hid).
    exists t. split; [apply in_or_app; now left|exact Hid].
Qed.

Lemma schema_create_asset db now user_id tenant_id type name region config_json :
  Member db user_id tenant_id -> schema_inv db ->
  schema_inv (fst (insert_asset now tenant_id type name region config_json db)).
Proof.
  intros (l & Hl & _ & Htl) [H1 H2 H3 H4 H5 H6 H7 H8 H9 H10 H11].
  constructor; cbn [fst insert_asset users tenants user_tenants assets users_seq
                      tenants_seq]; auto.
  intros a Ha. apply in_app_or in Ha. destruct Ha as [Ha|[<-|[]]]; [now apply H11|].
  cbn [Asset.tenant_id].
  assert (Hin : In tenant_id (map Tenant.id (tenants db))).
  { rewrite <- H9, <- Htl. now apply in_map. }
  apply in_map_iff in Hin. destruct Hin as (t & Hid & Ht). now exists t.
Qed.

Lemma evolves_keeps_schema db db' : evolves db db' -> schema_inv db -> schema_inv db'.
Proof.
  intros [ | now email ph Hu | now name u Hu Ht | now uid t ty n r c Hm
           | a Ha | now t | pk s ] Hinv.
  - exact Hinv.
  - now apply schema_register.
  - now apply schema_create_tenant.
  - now apply schema_create_asset with (user_id := uid).
  - destruct Hinv as [H1 H2 H3 H4 H5 H6 H7 H8 H9 H10 H11].
    constructor; cbn [delete_asset_row users tenants user_tenants assets users_seq
                        tenants_seq]; auto.
    intros x Hx. apply filter_In in Hx. apply H11. tauto.
  - destruct (rerun_frame now t db) as (Eu & Et & El & Ea & _).
    unfold rerun in *.
    destruct (flush_seqs now (to_add t (delete_open_findings t db)) 0
                (delete_open_findings t db)) as (Eus & Ets).
    now apply (schema_same db).
  - now apply (schema_same db).
Qed.

Lemma init_db_schema : schema_inv init_db.
Proof.
  constructor; cbn; try lia; try constructor; try reflexivity; intros ? [].
Qed.

Lemma requests_keep_schema Dict dumps hash (rs : list (Request Dict)) : forall db,
  schema_inv db -> schema_inv (fold_left (step Dict dumps hash) rs db).
Proof.
  induction rs as [|r rs IH]; intros db Hinv; [exact Hinv|].
  cbn [fold_left]. apply IH.
  apply (evolves_keeps_schema db); [apply step_evolves|exact Hinv].
Qed.

Lemma reachable_schema Dict dumps hash (rs : list (Request Dict)) :
  schema_inv (after Dict dumps hash rs).
Proof.
  unfold after. apply requests_keep_schema. apply init_db_schema.
Qed.

Lemma pairs_unique {A} (f g : A -> Z) (l : list A) :
  NoDup (map g l) -> NoDup (map (fun x => (f x, g x)) l).
Proof.
  induction l as [|x l IH]; intros Hnd; [constructor|].
  cbn [map] in *. inversion Hnd as [|? ? Hnotin Hnd']; subst.
  constructor; [|now apply IH].
  intros Hin. apply Hnotin. apply in_map_iff in Hin.
  destruct Hin as (y & Hy & Hin). injection Hy as _ Hg.
  rewrite <- Hg. now apply in_map.
Qed.

(** X22. The unique constraints of the schema are never violated: after any
    sequence of requests on the fresh schema, no two users share an e-mail or
    an id, no two tenants share a name or an id, and no two Membership rows
    link the same user to the same tenant. *)
Theorem unique_constraints_hold
    (Dict : Type) (dumps : Dict -> string) (hash : string -> string)
    (rs : list (Request Dict)) :
  NoDup (map User.email (users (after Dict dumps hash rs)))
  /\ NoDup (map User.id (users (after Dict dumps hash rs)))
  /\ NoDup (map Tenant.name (tenants (after Dict dumps hash rs)))
  /\ NoDup (map Tenant.id (tenants (after Dict dumps hash rs)))
  /\ NoDup (map (fun l => (UserTenant.user_id l, UserTenant.tenant_id l))
                (user_tenants (after Dict dumps hash rs))).
Proof.
  destruct (reachable_schema Dict dumps hash rs) as [_ _ H3 H4 _ _ H7 H8 H9 _ _].
  repeat split; auto. apply pairs_unique. now rewrite H9.
Qed.

(** X23. Memberships come from create_tenant only: after any sequence of
    requests on the fresh schema, every tenant has a Membership row, that row
    has role "owner" and an existing user, no tenant has a second row, and
    every row belongs to an existing tenant. *)
Theorem one_owner_per_tenant
    (Dict : Type) (dumps : Dict -> string) (hash : string -> string)
    (rs : list (Request Dict)) :
  (forall t, In t (tenants (after Dict dumps hash rs)) ->
     exists l, In l (user_tenants (after Dict dumps hash rs))
               /\ UserTenant.tenant_id l = Tenant.id t)
  /\ (forall l, In l (user_tenants (after Dict dumps hash rs)) ->
        UserTenant.role l = "owner"
        /\ (exists u, In u (users (after Dict dumps hash rs))
                      /\ User.id u = UserTenant.user_id l)
        /\ (exists t, In t (tenants (after Dict dumps hash rs))
                      /\ Tenant.id t = UserTenant.tenant_id l))
  /\ (forall l1 l2,
        In l1 (user_tenants (after Dict dumps hash rs)) ->
        In l2 (user_tenants (after Dict dumps hash rs)) ->
        UserTenant.tenant_id l1 = UserTenant.tenant_id l2 -> l1 = l2).
Proof.
  destruct (reachable_schema Dict dumps hash rs) as [_ _ _ _ _ _ H7 _ H9 H10 _].
  split; [|split].
  - intros t Ht.
    assert (Hin : In (Tenant.id t)
                     (map UserTenant.tenant_id (user_tenants (after Dict dumps hash rs))))
      by (rewrite H9; now apply in_map).
    apply in_map_iff in Hin. destruct Hin as (l & Hid & Hl). now exists l.
  - intros l Hl. destruct (H10 l Hl) as (Hr & Hu). split; [exact Hr|].
    split; [exact Hu|].
    assert (Hin : In (UserTenant.tenant_id l)
                     (map Tenant.id (tenants (after Dict dumps hash rs))))
      by (rewrite <- H9; now apply in_map).
    apply in_map_iff in Hin. destruct Hin as (t & Hid & Ht). now exists t.
  - intros l1 l2 H1 H2 E.
    apply (same_key_same_row UserTenant.tenant_id
             (user_tenants (after Dict dumps hash rs))); auto.
    now rewrite H9.
Qed.

(** X24. References stay valid: after any sequence of requests on the fresh
    schema, every asset belongs to an existing tenant, and every finding
    belongs to an existing tenant and to an existing asset. *)
Theorem references_resolve
    (Dict : Type) (dumps : Dict -> string) (hash : string -> string)
    (rs : list (Request Dict)) :
  (forall a, In a (assets (after Dict dumps hash rs)) ->
     exists t, In t (tenants (after Dict dumps hash rs))
               /\ Tenant.id t = Asset.tenant_id a)
  /\ (forall f, In f (findings (after Dict dumps hash rs)) ->
        (exists t, In t (tenants (after Dict dumps hash rs))
                   /\ Tenant.id t = Finding.tenant_id f)
        /\ (exists a, In a (assets (after Dict dumps hash rs))
                      /\ Asset.id a = Finding.asset_id f)).
Proof.
  pose proof (reachable_schema Dict dumps hash rs) as S.
  assert (I : store_inv (after Dict dumps hash rs))
    by (unfold after; apply requests_keep_inv; apply init_db_inv).
  split; [exact (sc_asset_tenant _ S)|].
  intros f Hf. destruct (inv_refs _ I f Hf) as (a & Ha & Hid & Ht).
  split; [|now exists a].
  destruct (sc_asset_tenant _ S a Ha) as (t & Hin & Htid).
  exists t. split; [exact Hin|congruence].
Qed.

Lemma one_owner_per_tenant_witness :
  In (Tenant.mk 1 "acme" 2) (tenants (after string (fun d => d) demo_hash e2e))
  /\ exists l, In l (user_tenants (after string (fun d => d) demo_hash e2e))
               /\ UserTenant.tenant_id l = 1.
Proof.
  split; [left; reflexivity|].
  destruct (one_owner_per_tenant string (fun d => d) demo_hash e2e) as (H & _).
  exact (H (Tenant.mk 1 "acme" 2) (or_introl eq_refl)).
Defined.

Lemma references_resolve_witness :
  In (Asset.mk 1 1 "aws_s3_bucket" "logs" None None 3)
     (assets (after string (fun d => d) demo_hash e2e))
  /\ exists t, In t (tenants (after string (fun d => d) demo_hash e2e))
               /\ Tenant.id t = 1.
Proof.
  split; [left; reflexivity|].
  destruct (references_resolve string (fun d => d) demo_hash e2e) as (H & _).
  exact (H (Asset.mk 1 1 "aws_s3_bucket" "logs" None None 3) (or_introl eq_refl)).
Defined.
